(** * Document assembly and density variants of the watch generator

    A verification development for [framework/generator.py]: the task
    model, single-page assembly ([CompactFramework.generate]), the
    density-variant generator ([generate_density_variants]) and
    [create_task].  [generate_standalone] is not embedded: its source text
    has two [else:] lines (362 and 404) with no indented body, so it has no
    parse to follow.

    Python strings are modelled as [string], read as UTF-8 byte sequences
    (tokens, markers and separators of the program are ASCII, and a match
    of a valid UTF-8 pattern in valid UTF-8 text falls on code-point
    boundaries).  File-system and console effects are threaded through a
    small state-and-exception monad over an explicit [World]. *)

From Stdlib Require Import ZArith Ascii String List Lia.
From stdpp Require Import base option list strings pretty gmap.

Local Open Scope Z_scope.
Local Open Scope nat_scope.

(** ** Python string primitives *)

Module PyStr.

(** The characters the templates need and a literal cannot hold. *)
Definition nl : string := String "010"%char EmptyString.
Definition dq : string := String "034"%char EmptyString.

(** [s[n:]] *)
Fixpoint drop (n : nat) (s : string) : string :=
  match n, s with
  | 0, _ => s
  | S _, EmptyString => EmptyString
  | S k, String _ s' => drop k s'
  end.

(** [s.startswith(p)] *)
Definition startswith (s p : string) : bool := String.prefix p s.

(** [s.endswith(p)], by comparing the reversed strings. *)
Definition endswith (s p : string) : bool :=
  String.prefix (String.rev p) (String.rev s).

(** [sub in s]: some suffix of [s] starts with [sub]. *)
Fixpoint contains (sub s : string) : bool :=
  String.prefix sub s ||
  match s with
  | EmptyString => false
  | String _ s' => contains sub s'
  end.

(** The left-to-right scan of [str.replace] for a non-empty [old]: at a
    position where [old] starts, [new] is emitted and the scan resumes
    behind the occurrence ([skip] counts the characters of the occurrence
    still to pass over); elsewhere the character is copied. *)
Fixpoint replace_go (old new : string) (skip : nat) (s : string) : string :=
  match s with
  | EmptyString => EmptyString
  | String c s' =>
      match skip with
      | S k => replace_go old new k s'
      | 0 =>
          if String.prefix old s
          then new +:+ replace_go old new (String.length old - 1) s'
          else String c (replace_go old new 0 s')
      end
  end.

(** [str.replace] with an empty [old] puts [new] before every character
    and at the end. *)
Fixpoint replace_empty (new s : string) : string :=
  match s with
  | EmptyString => new
  | String c s' => new +:+ String c (replace_empty new s')
  end.

(** [s.replace(old, new)] *)
Definition replace (s old new : string) : string :=
  match old with
  | EmptyString => replace_empty new s
  | String _ _ => replace_go old new 0 s
  end.

(** Put a character in front of the first piece. *)
Definition cons_hd (c : ascii) (ps : list string) : list string :=
  match ps with
  | [] => [String c EmptyString]
  | p :: ps' => String c p :: ps'
  end.

(** The scan of [str.split] for a non-empty separator: every occurrence
    found from the left closes the current piece. *)
Fixpoint split_go (sep : string) (skip : nat) (s : string) : list string :=
  match s with
  | EmptyString => [EmptyString]
  | String c s' =>
      match skip with
      | S k => split_go sep k s'
      | 0 =>
          if String.prefix sep s
          then EmptyString :: split_go sep (String.length sep - 1) s'
          else cons_hd c (split_go sep 0 s')
      end
  end.

(** [s.split(sep)]; Python raises [ValueError] on an empty separator,
    which is [None] here. *)
Definition split (s sep : string) : option (list string) :=
  match sep with
  | EmptyString => None
  | String _ _ => Some (split_go sep 0 s)
  end.

(** [sep.join(ls)] *)
Definition join (sep : string) (ls : list string) : string :=
  String.concat sep ls.

(** ASCII white space as [str.isspace] sees it (code points 9-13 and
    28-32); white space beyond ASCII is not covered by the byte model. *)
Definition is_space (c : ascii) : bool :=
  let n := nat_of_ascii c in
  ((9 <=? n) && (n <=? 13)) || ((28 <=? n) && (n <=? 32)).

Fixpoint lstrip (s : string) : string :=
  match s with
  | EmptyString => EmptyString
  | String c s' => if is_space c then lstrip s' else s
  end.

(** [s.strip()] *)
Definition strip (s : string) : string :=
  String.rev (lstrip (String.rev (lstrip s))).

(** Truth value of a string in a condition. *)
Definition truthy (s : string) : bool :=
  match s with
  | EmptyString => false
  | String _ _ => true
  end.

End PyStr.

(** [sub] occurs in [s] *)
Definition Substring (sub s : string) : Prop :=
  ∃ a b, s = a +:+ sub +:+ b.

(** The number of places of [s] at which [sub] starts. *)
Fixpoint occurrences (sub s : string) : nat :=
  (if String.prefix sub s then 1 else 0)
  + match s with
    | EmptyString => 0
    | String _ s' => occurrences sub s'
    end.

(** ** The f-string templates of the generator, as functions of their holes *)

Module Templates.
  Import PyStr.

(** The illustration region of [Task.to_html]. *)
Definition visualization_block (visualization_svg : string) : string :=
"
            <div class=" +:+ dq +:+ "task-visualization" +:+ dq +:+ ">
                " +:+ visualization_svg +:+ "
            </div>
            ".

(** The block of one task in [Task.to_html]. *)
Definition task_block (all_classes number category_value solution visualization_html : string) : string :=
"
        <div class=" +:+ dq +:+ all_classes +:+ dq +:+ ">
            <div class=" +:+ dq +:+ "task-header" +:+ dq +:+ ">
                <div class=" +:+ dq +:+ "task-number" +:+ dq +:+ ">Задача " +:+ number +:+ "</div>
                <div class=" +:+ dq +:+ "task-category" +:+ dq +:+ ">" +:+ category_value +:+ "</div>
            </div>
            <div class=" +:+ dq +:+ "task-content" +:+ dq +:+ ">
                <div class=" +:+ dq +:+ "task-solution" +:+ dq +:+ ">
                    " +:+ solution +:+ "
                </div>
                " +:+ visualization_html +:+ "
            </div>
        </div>
        ".

(** The self-contained page of [generate_density_variants], with its auto-fit script. *)
Definition base_template (css_content variant_class : string) : string :=
"<!DOCTYPE html>
<html>
<head>
    <meta charset=" +:+ dq +:+ "UTF-8" +:+ dq +:+ ">
    <title>Watch Task</title>
    <script src=" +:+ dq +:+ "https://polyfill.io/v3/polyfill.min.js?features=es6" +:+ dq +:+ "></script>
    <script id=" +:+ dq +:+ "MathJax-script" +:+ dq +:+ " async src=" +:+ dq +:+ "https://cdn.jsdelivr.net/npm/mathjax@3/es5/tex-mml-chtml.js" +:+ dq +:+ "></script>
    <script>
        // AUTO-FIT LOGIC
        window.addEventListener('load', function() {
            const container = document.querySelector('.watch-container');
            if (!container) return;

            // 1. Adjust Font Size to Fill
            // Only for adaptive layout or generally to prevent overflow
            function autoFit() {
                let fontSize = 100; // Start percentage
                const minSize = 40;
                
                // Check for overflow
                while (container.scrollHeight > container.clientHeight && fontSize > minSize) {
                    fontSize -= 2;
                    document.body.style.fontSize = fontSize + '%';
                }
                
                // If too much space (only for adaptive), grow? 
                // For now, just ensure it fits.
            }
            
            // Run after MathJax
            if (window.MathJax) {
                MathJax.startup.promise.then(() => {
                    setTimeout(autoFit, 500); // Delay for rendering
                });
            } else {
                autoFit();
            }
        });
    </script>
    <style>
        " +:+ css_content +:+ "
    </style>
</head>
<body class=" +:+ dq +:+ variant_class +:+ dq +:+ ">
    <div class=" +:+ dq +:+ "watch-container" +:+ dq +:+ ">
        {{CONTENT}}
    </div>
</body>
</html>".

(** Two short tasks, top and bottom, under the diagonal separator. *)
Definition zigzag_content (number1 solution1 number2 solution2 : string) : string :=
"
                <div class=" +:+ dq +:+ "layout-zigzag" +:+ dq +:+ ">
                    <div class=" +:+ dq +:+ "zigzag-separator" +:+ dq +:+ ">
                         <svg width=" +:+ dq +:+ "100%" +:+ dq +:+ " height=" +:+ dq +:+ "100%" +:+ dq +:+ " viewBox=" +:+ dq +:+ "0 0 100 100" +:+ dq +:+ " preserveAspectRatio=" +:+ dq +:+ "none" +:+ dq +:+ ">
                             <polyline points=" +:+ dq +:+ "0,0 100,0 100,40 0,100" +:+ dq +:+ " class=" +:+ dq +:+ "zigzag-line" +:+ dq +:+ " />
                         </svg>
                    </div>
                    <div class=" +:+ dq +:+ "task-top" +:+ dq +:+ ">
                        <div class=" +:+ dq +:+ "task-id" +:+ dq +:+ ">" +:+ number1 +:+ "</div>
                        <div class=" +:+ dq +:+ "math-content" +:+ dq +:+ ">" +:+ solution1 +:+ "</div>
                    </div>
                    <div class=" +:+ dq +:+ "task-bottom" +:+ dq +:+ ">
                        <div class=" +:+ dq +:+ "task-id" +:+ dq +:+ ">" +:+ number2 +:+ "</div>
                        <div class=" +:+ dq +:+ "math-content" +:+ dq +:+ ">" +:+ solution2 +:+ "</div>
                    </div>
                </div>
                ".

(** Two short tasks, left and right. *)
Definition vertical_split_content (number1 solution1 number2 solution2 : string) : string :=
"
                <div class=" +:+ dq +:+ "layout-vertical-split" +:+ dq +:+ ">
                    <div class=" +:+ dq +:+ "task-left" +:+ dq +:+ ">
                        <div class=" +:+ dq +:+ "task-id" +:+ dq +:+ ">#" +:+ number1 +:+ "</div>
                        <div class=" +:+ dq +:+ "math-content" +:+ dq +:+ ">" +:+ solution1 +:+ "</div>
                    </div>
                    <div class=" +:+ dq +:+ "task-right" +:+ dq +:+ ">
                        <div class=" +:+ dq +:+ "task-id" +:+ dq +:+ ">#" +:+ number2 +:+ "</div>
                        <div class=" +:+ dq +:+ "math-content" +:+ dq +:+ ">" +:+ solution2 +:+ "</div>
                    </div>
                </div>
                ".

(** One medium task in the adaptive container. *)
Definition medium_content (number solution : string) : string :=
"
            <div class=" +:+ dq +:+ "layout-adaptive" +:+ dq +:+ ">
                <div class=" +:+ dq +:+ "adaptive-content" +:+ dq +:+ ">
                    <div class=" +:+ dq +:+ "task-id" +:+ dq +:+ ">Task " +:+ number +:+ "</div>
                    <div class=" +:+ dq +:+ "math-content" +:+ dq +:+ ">" +:+ solution +:+ "</div>
                </div>
            </div>
            ".

(** First half of a long task. *)
Definition long_content1 (number part : string) : string :=
"
            <div class=" +:+ dq +:+ "layout-adaptive" +:+ dq +:+ ">
                <div class=" +:+ dq +:+ "adaptive-content" +:+ dq +:+ ">
                    <div class=" +:+ dq +:+ "task-id" +:+ dq +:+ ">Task " +:+ number +:+ " (1/2)</div>
                    <div class=" +:+ dq +:+ "math-content" +:+ dq +:+ ">" +:+ part +:+ "</div>
                </div>
            </div>
            ".

(** Second half of a long task. *)
Definition long_content2 (number part : string) : string :=
"
            <div class=" +:+ dq +:+ "layout-adaptive" +:+ dq +:+ ">
                <div class=" +:+ dq +:+ "adaptive-content" +:+ dq +:+ ">
                    <div class=" +:+ dq +:+ "task-id" +:+ dq +:+ ">Task " +:+ number +:+ " (2/2)</div>
                    <div class=" +:+ dq +:+ "math-content" +:+ dq +:+ ">" +:+ part +:+ "</div>
                </div>
            </div>
            ".

End Templates.

(** ** Data model *)

(** [class TaskCategory(Enum)] *)
Inductive TaskCategory : Type := SHORT | MEDIUM | LONG.

Global Instance TaskCategory_eq_dec : EqDecision TaskCategory.
Proof. solve_decision. Defined.

(** [TaskCategory.value] *)
Definition value (c : TaskCategory) : string :=
  match c with
  | SHORT => "short"
  | MEDIUM => "medium"
  | LONG => "long"
  end.

(** [class Task]; [visualization_svg] is [None] or a string. *)
Record Task : Type := mkTask {
  number : Z;
  category : TaskCategory;
  solution : string;
  visualization_svg : option string;
  custom_class : string
}.

(** [Task.to_html] *)
Definition to_html (self : Task) : string :=
  let category_class := "task-" +:+ value (category self) in
  let all_classes :=
    PyStr.strip ("task " +:+ category_class +:+ " " +:+ custom_class self) in
  let visualization_html :=
    match visualization_svg self with
    | Some svg =>
        if PyStr.truthy svg then Templates.visualization_block svg
        else EmptyString
    | None => EmptyString
    end in
  Templates.task_block all_classes (pretty (number self))
    (value (category self)) (solution self) visualization_html.

(** [class CompactFramework]: the fields the methods read.  The [config]
    dictionary that [__init__] loads is read by no method and is left out. *)
Record CompactFramework : Type := mkFramework {
  title : string;
  author : string;
  date : string;
  tasks : list Task;
  custom_styles : string
}.

(** [CompactFramework.__init__], with [None] for an argument left at its
    default. *)
Definition new_framework (title author date : option string) : CompactFramework :=
  {| title := default "Математическая работа" title;
     author := default "Студент" author;
     date := default EmptyString date;
     tasks := [];
     custom_styles := EmptyString |}.

(** [CompactFramework.add_task] *)
Definition add_task (self : CompactFramework) (task : Task) : CompactFramework :=
  {| title := title self; author := author self; date := date self;
     tasks := tasks self ++ [task];
     custom_styles := custom_styles self |}.

(** [CompactFramework.add_custom_styles] *)
Definition add_custom_styles (self : CompactFramework) (styles : string)
  : CompactFramework :=
  {| title := title self; author := author self; date := date self;
     tasks := tasks self;
     custom_styles := custom_styles self +:+ styles +:+ PyStr.nl |}.

(** [CompactFramework._optimize_layout] *)
Definition _optimize_layout (self : CompactFramework) : list Task :=
  let optimized := [] in
  let short_tasks := filter (λ t, category t = SHORT) (tasks self) in
  let medium_tasks := filter (λ t, category t = MEDIUM) (tasks self) in
  let long_tasks := filter (λ t, category t = LONG) (tasks self) in
  let optimized := optimized ++ short_tasks in
  let optimized := optimized ++ medium_tasks in
  let optimized := optimized ++ long_tasks in
  optimized.

(** [create_task]: the dictionary lookup with its default. *)
Definition category_map : gmap string TaskCategory :=
  <["short" := SHORT]> (<["medium" := MEDIUM]> (<["long" := LONG]> ∅)).

Definition create_task (number : Z) (category solution : string)
    (visualization_svg : option string) : Task :=
  let task_category := default MEDIUM (category_map !! category) in
  mkTask number task_category solution visualization_svg EmptyString.

(** ** The world: files, directories and what the program did to them *)

Inductive Event : Type :=
  | EvMkdir (path : string)
  | EvWrite (path content : string)
  | EvPrint (line : string).

(** [resource_root] is [os.path.dirname(__file__)].  A path names at most
    one file; intermediate directories and permissions are not modelled. *)
Record World : Type := mkWorld {
  resource_root : string;
  files : gmap string string;
  dirs : gset string;
  trace : list Event
}.

Inductive Exn : Type :=
  | FileNotFoundError (path : string)
  | FileExistsError (path : string)
  | IndexError
  | ValueError.

Inductive Result (A : Type) : Type :=
  | Ok (a : A)
  | Raise (e : Exn).
Global Arguments Ok {A} a.
Global Arguments Raise {A} e.

(** A computation runs in a world and leaves one; what was written before
    an exception stays written. *)
Definition IO (A : Type) : Type := World → Result A * World.

Global Instance IO_ret : MRet IO := λ A a w, (Ok a, w).
Global Instance IO_bind : MBind IO := λ A B f m w,
  match m w with
  | (Ok a, w') => f a w'
  | (Raise e, w') => (Raise e, w')
  end.

Definition raise {A : Type} (e : Exn) : IO A := λ w, (Raise e, w).

Definition emit (e : Event) (w : World) : World :=
  mkWorld (resource_root w) (files w) (dirs w) (trace w ++ [e]).

(** [os.path.dirname(__file__)] *)
Definition module_dir : IO string := λ w, (Ok (resource_root w), w).

(** [os.path.join(a, b)] of posixpath *)
Definition path_join (a b : string) : string :=
  if PyStr.startswith b "/" then b
  else if negb (PyStr.truthy a) || PyStr.endswith a "/" then a +:+ b
  else a +:+ "/" +:+ b.

(** [os.path.exists] *)
Definition path_exists (path : string) : IO bool := λ w,
  (Ok (bool_decide (is_Some (files w !! path) ∨ path ∈ dirs w)), w).

(** [os.makedirs], which refuses a path that exists. *)
Definition makedirs (path : string) : IO unit := λ w,
  if bool_decide (is_Some (files w !! path) ∨ path ∈ dirs w)
  then (Raise (FileExistsError path), w)
  else (Ok tt,
        emit (EvMkdir path)
          (mkWorld (resource_root w) (files w) ({[path]} ∪ dirs w) (trace w))).

(** [with open(path, 'r') as f: f.read()] *)
Definition read_file (path : string) : IO string := λ w,
  match files w !! path with
  | Some content => (Ok content, w)
  | None => (Raise (FileNotFoundError path), w)
  end.

(** [with open(path, 'w') as f: f.write(content)] *)
Definition write_file (path content : string) : IO unit := λ w,
  (Ok tt,
   emit (EvWrite path content)
     (mkWorld (resource_root w) (<[path := content]> (files w)) (dirs w)
        (trace w))).

(** [print(line)] *)
Definition print (line : string) : IO unit := λ w, (Ok tt, emit (EvPrint line) w).

(** [l[i]] *)
Definition getitem {A : Type} (l : list A) (i : nat) : IO A :=
  match l !! i with
  | Some x => mret x
  | None => raise IndexError
  end.

(** [s.split(sep)] with its [ValueError] *)
Definition str_split (s sep : string) : IO (list string) :=
  match PyStr.split s sep with
  | Some parts => mret parts
  | None => raise ValueError
  end.

(** ** The generator *)

Definition SPLIT_MARKER : string :=
  "<hr class=" +:+ PyStr.dq +:+ "split-point" +:+ PyStr.dq +:+ ">".

(** The five substitutions of [generate], in the order of the source. *)
Definition fill_template (self : CompactFramework) (template tasks_html : string)
  : string :=
  let html :=
    if PyStr.truthy (custom_styles self)
    then PyStr.replace template "{{CUSTOM_STYLES}}" (custom_styles self)
    else PyStr.replace template "{{CUSTOM_STYLES}}" EmptyString in
  let html := PyStr.replace html "{{TITLE}}" (title self) in
  let html := PyStr.replace html "{{AUTHOR}}" (author self) in
  let html := PyStr.replace html "{{DATE}}" (date self) in
  let html := PyStr.replace html "{{TASKS}}" tasks_html in
  html.

(** [CompactFramework.generate] *)
Definition generate (self : CompactFramework) (output_path : string)
    (template_path : option string) : IO unit :=
  template_path ←
    match template_path with
    | None => root ← module_dir; mret (path_join root "template.html")
    | Some p => mret p
    end;
  template ← read_file template_path;
  let optimized_tasks := _optimize_layout self in
  let tasks_html := PyStr.join PyStr.nl (map to_html optimized_tasks) in
  let html := fill_template self template tasks_html in
  write_file output_path html;;
  print ("✓ HTML документ сгенерирован: " +:+ output_path);;
  print ("  Всего задач: " +:+ pretty (length (tasks self)));;
  print ("  - Коротких: " +:+
         pretty (length (filter (λ t, category t = SHORT) (tasks self))));;
  print ("  - Средних: " +:+
         pretty (length (filter (λ t, category t = MEDIUM) (tasks self))));;
  print ("  - Длинных: " +:+
         pretty (length (filter (λ t, category t = LONG) (tasks self)))).

(** [CompactFramework.generate_density_variants] *)
Definition generate_density_variants (self : CompactFramework)
    (output_dir variant_class : string) : IO unit :=
  present ← path_exists output_dir;
  (if negb present then makedirs output_dir else mret tt);;
  root ← module_dir;
  let css_path := path_join root "watch_styles.css" in
  css_content ← read_file css_path;
  let base_template := Templates.base_template css_content variant_class in
  (* 1. the first two short tasks, paired *)
  let short_tasks := filter (λ t, category t = SHORT) (tasks self) in
  (if bool_decide (2 ≤ length short_tasks) then
     t1 ← getitem short_tasks 0;
     t2 ← getitem short_tasks 1;
     let content :=
       if PyStr.contains "zigzag" variant_class
       then Templates.zigzag_content
              (pretty (number t1)) (solution t1)
              (pretty (number t2)) (solution t2)
       else Templates.vertical_split_content
              (pretty (number t1)) (solution t1)
              (pretty (number t2)) (solution t2) in
     write_file (path_join output_dir "combined_short.html")
       (PyStr.replace base_template "{{CONTENT}}" content)
   else mret tt);;
  (* 2. the first medium task, alone *)
  let medium_tasks := filter (λ t, category t = MEDIUM) (tasks self) in
  (if bool_decide (medium_tasks ≠ []) then
     t ← getitem medium_tasks 0;
     let content :=
       Templates.medium_content (pretty (number t)) (solution t) in
     write_file (path_join output_dir "medium_single.html")
       (PyStr.replace base_template "{{CONTENT}}" content)
   else mret tt);;
  (* 3. the first long task, in two parts *)
  let long_tasks := filter (λ t, category t = LONG) (tasks self) in
  if bool_decide (long_tasks ≠ []) then
    t ← getitem long_tasks 0;
    parts ← str_split (solution t) SPLIT_MARKER;
    let parts :=
      if bool_decide (length parts < 2)
      then [solution t; "Continued..."] else parts in
    part0 ← getitem parts 0;
    let content1 := Templates.long_content1 (pretty (number t)) part0 in
    write_file (path_join output_dir "long_split_part1.html")
      (PyStr.replace base_template "{{CONTENT}}" content1);;
    part1 ←
      (if bool_decide (1 < length parts) then getitem parts 1
       else mret EmptyString);
    let content2 := Templates.long_content2 (pretty (number t)) part1 in
    write_file (path_join output_dir "long_split_part2.html")
      (PyStr.replace base_template "{{CONTENT}}" content2)
  else mret tt.

(** Run a computation: its result and the world it leaves. *)
Definition run {A : Type} (m : IO A) (w : World) : Result A * World := m w.

(** What a run added to the trace. *)
Definition events_since (w w' : World) : list Event :=
  drop (length (trace w)) (trace w').

(** The contents written to [path], in order. *)
Definition writes_to (path : string) (evs : list Event) : list string :=
  omap (λ e, match e with
             | EvWrite p c => if decide (p = path) then Some c else None
             | _ => None
             end) evs.

(** The paths written, in order. *)
Definition written_paths (evs : list Event) : list string :=
  omap (λ e, match e with EvWrite p _ => Some p | _ => None end) evs.

(** ** Facts about the string primitives *)

Lemma str_app_nil_l (s : string) : EmptyString +:+ s = s.
Proof. reflexivity. Qed.

Lemma str_app_cons (c : ascii) (a b : string) :
  String c a +:+ b = String c (a +:+ b).
Proof. reflexivity. Qed.

Lemma str_app_nil_r (s : string) : s +:+ EmptyString = s.
Proof.
  induction s as [|c s IH]; [reflexivity|].
  rewrite str_app_cons, IH. reflexivity.
Qed.

Lemma str_app_assoc (a b c : string) : (a +:+ b) +:+ c = a +:+ (b +:+ c).
Proof.
  induction a as [|x a IH]; [reflexivity|].
  rewrite !str_app_cons, IH. reflexivity.
Qed.

Lemma str_app_length (a b : string) :
  String.length (a +:+ b) = String.length a + String.length b.
Proof.
  induction a as [|x a IH]; [reflexivity|].
  rewrite str_app_cons. simpl. rewrite IH. reflexivity.
Qed.

Lemma length_zero_empty (s : string) : String.length s = 0 → s = EmptyString.
Proof. destruct s; [reflexivity|discriminate]. Qed.

Lemma prefix_nil (s : string) : String.prefix EmptyString s = true.
Proof. destruct s; reflexivity. Qed.

Lemma prefix_cons (c d : ascii) (p s : string) :
  String.prefix (String c p) (String d s)
  = if ascii_dec c d then String.prefix p s else false.
Proof. reflexivity. Qed.

Lemma prefix_app (p r : string) : String.prefix p (p +:+ r) = true.
Proof.
  induction p as [|c p IH]; [apply prefix_nil|].
  rewrite str_app_cons, prefix_cons.
  destruct (ascii_dec c c); [exact IH|congruence].
Qed.

Lemma prefix_true_app (p s : string) :
  String.prefix p s = true → ∃ r, s = p +:+ r.
Proof.
  revert s. induction p as [|c p IH]; intros s H.
  - exists s. reflexivity.
  - destruct s as [|d s]; [discriminate|].
    rewrite prefix_cons in H.
    destruct (ascii_dec c d) as [->|]; [|discriminate].
    destruct (IH s H) as [r ->]. exists r. reflexivity.
Qed.

Lemma prefix_iff (p s : string) :
  String.prefix p s = true ↔ ∃ r, s = p +:+ r.
Proof.
  split; [apply prefix_true_app|].
  intros [r ->]. apply prefix_app.
Qed.

(** A string that starts with a character [old] does not start with is
    no occurrence of [old]. *)
Lemma prefix_head_ne (c d : ascii) (p s : string) :
  c ≠ d → String.prefix (String c p) (String d s) = false.
Proof.
  intros Hne. rewrite prefix_cons.
  destruct (ascii_dec c d); [contradiction|reflexivity].
Qed.

Lemma str_drop_app_length (p r : string) : PyStr.drop (String.length p) (p +:+ r) = r.
Proof.
  induction p as [|c p IH]; [destruct r; reflexivity|].
  rewrite str_app_cons. simpl. exact IH.
Qed.

Lemma str_drop_nil (n : nat) : PyStr.drop n EmptyString = EmptyString.
Proof. destruct n; reflexivity. Qed.

(** *** [contains] decides occurrence *)

Lemma contains_Substring (sub s : string) :
  PyStr.contains sub s = true ↔ Substring sub s.
Proof.
  split.
  - induction s as [|c s IH]; cbn [PyStr.contains]; intros H.
    + apply orb_true_iff in H as [H|H]; [|discriminate].
      apply prefix_true_app in H as [r Hr].
      exists EmptyString, r. exact Hr.
    + apply orb_true_iff in H as [H|H].
      * apply prefix_true_app in H as [r Hr].
        exists EmptyString, r. exact Hr.
      * destruct (IH H) as (a & b & ->).
        exists (String c a), b. reflexivity.
  - intros (a & b & ->).
    induction a as [|c a IH].
    + rewrite str_app_nil_l.
      destruct (sub +:+ b) eqn:E; cbn [PyStr.contains];
        rewrite <- E, prefix_app; reflexivity.
    + rewrite str_app_cons. cbn [PyStr.contains]. rewrite IH. apply orb_true_r.
Qed.

Lemma contains_false_not_Substring (sub s : string) :
  PyStr.contains sub s = false → ¬ Substring sub s.
Proof.
  intros H Hs. apply contains_Substring in Hs. congruence.
Qed.

Lemma Substring_refl (s : string) : Substring s s.
Proof. exists EmptyString, EmptyString. rewrite str_app_nil_r. reflexivity. Qed.

Lemma Substring_app_l (sub a s : string) : Substring sub s → Substring sub (a +:+ s).
Proof.
  intros (x & y & ->). exists (a +:+ x), y. rewrite str_app_assoc. reflexivity.
Qed.

Lemma Substring_app_r (sub s b : string) : Substring sub s → Substring sub (s +:+ b).
Proof.
  intros (x & y & ->). exists x, (y +:+ b). rewrite !str_app_assoc. reflexivity.
Qed.

Lemma Substring_cons (sub s : string) (c : ascii) :
  Substring sub s → Substring sub (String c s).
Proof. apply (Substring_app_l sub (String c EmptyString)). Qed.

Lemma Substring_trans (a b c : string) :
  Substring a b → Substring b c → Substring a c.
Proof.
  intros Hab (x & y & ->). apply Substring_app_l, Substring_app_r, Hab.
Qed.

(** *** The scan of [replace] *)

Lemma replace_go_skip (old new : string) (k : nat) (s : string) :
  PyStr.replace_go old new k s = PyStr.replace_go old new 0 (PyStr.drop k s).
Proof.
  revert k. induction s as [|c s IH]; intros k.
  - rewrite str_drop_nil. reflexivity.
  - destruct k as [|k]; [reflexivity|]. simpl. apply IH.
Qed.

Lemma replace_go_hit (old new r : string) :
  old ≠ EmptyString →
  PyStr.replace_go old new 0 (old +:+ r)
  = new +:+ PyStr.replace_go old new 0 r.
Proof.
  intros Hne. destruct old as [|c old]; [contradiction|].
  rewrite str_app_cons. cbn [PyStr.replace_go].
  rewrite <- str_app_cons, prefix_app.
  f_equal. rewrite replace_go_skip. f_equal.
  replace (String.length (String c old) - 1) with (String.length old)
    by (simpl; lia).
  apply str_drop_app_length.
Qed.

Lemma replace_go_miss (old new : string) (c : ascii) (s : string) :
  String.prefix old (String c s) = false →
  PyStr.replace_go old new 0 (String c s)
  = String c (PyStr.replace_go old new 0 s).
Proof. intros H. cbn [PyStr.replace_go]. rewrite H. reflexivity. Qed.

Lemma replace_nonempty (s old new : string) :
  old ≠ EmptyString → PyStr.replace s old new = PyStr.replace_go old new 0 s.
Proof. destruct old; [contradiction|reflexivity]. Qed.

(** Where the token occurs, its replacement occurs in the result. *)
Lemma replace_go_Substring (old new s : string) :
  old ≠ EmptyString → Substring old s →
  Substring new (PyStr.replace_go old new 0 s).
Proof.
  intros Hne (a & b & ->).
  induction a as [|c a IH].
  - rewrite str_app_nil_l, replace_go_hit by exact Hne.
    apply Substring_app_r, Substring_refl.
  - rewrite str_app_cons.
    destruct (String.prefix old (String c (a +:+ old +:+ b))) eqn:E.
    + apply prefix_true_app in E as [r Hr]. rewrite Hr.
      rewrite replace_go_hit by exact Hne.
      apply Substring_app_r, Substring_refl.
    + rewrite replace_go_miss by exact E.
      apply Substring_cons, IH.
Qed.

Lemma replace_Substring (s old new : string) :
  old ≠ EmptyString → Substring old s →
  Substring new (PyStr.replace s old new).
Proof.
  intros Hne H. rewrite replace_nonempty by exact Hne.
  apply replace_go_Substring; assumption.
Qed.

(** A text the token does not occur in is left alone. *)
Lemma replace_go_absent (old new s : string) :
  PyStr.contains old s = false → PyStr.replace_go old new 0 s = s.
Proof.
  induction s as [|c s IH]; [reflexivity|].
  cbn [PyStr.contains]. intros H.
  apply orb_false_iff in H as [H1 H2].
  rewrite replace_go_miss by exact H1. f_equal. apply IH, H2.
Qed.

(** *** The scan of [split] *)

Lemma split_go_skip (sep : string) (k : nat) (s : string) :
  PyStr.split_go sep k s = PyStr.split_go sep 0 (PyStr.drop k s).
Proof.
  revert k. induction s as [|c s IH]; intros k.
  - rewrite str_drop_nil. reflexivity.
  - destruct k as [|k]; [reflexivity|]. simpl. apply IH.
Qed.

Lemma split_go_hit (sep r : string) :
  sep ≠ EmptyString →
  PyStr.split_go sep 0 (sep +:+ r) = EmptyString :: PyStr.split_go sep 0 r.
Proof.
  intros Hne. destruct sep as [|c sep]; [contradiction|].
  rewrite str_app_cons. cbn [PyStr.split_go].
  rewrite <- str_app_cons, prefix_app.
  f_equal. rewrite split_go_skip. f_equal.
  replace (String.length (String c sep) - 1) with (String.length sep)
    by (simpl; lia).
  apply str_drop_app_length.
Qed.

Lemma split_go_miss (sep : string) (c : ascii) (s : string) :
  String.prefix sep (String c s) = false →
  PyStr.split_go sep 0 (String c s) = PyStr.cons_hd c (PyStr.split_go sep 0 s).
Proof. intros H. cbn [PyStr.split_go]. rewrite H. reflexivity. Qed.

(** No separator: one piece, the text itself. *)
Lemma split_go_absent (sep s : string) :
  sep ≠ EmptyString →
  PyStr.contains sep s = false → PyStr.split_go sep 0 s = [s].
Proof.
  intros Hne. induction s as [|c s IH]; [reflexivity|].
  cbn [PyStr.contains]. intros H.
  apply orb_false_iff in H as [H1 H2].
  rewrite split_go_miss by exact H1. rewrite IH by exact H2. reflexivity.
Qed.

(** [NoStartIn sep a rest]: no occurrence of [sep] in [a +:+ rest] starts
    inside [a]. *)
Definition NoStartIn (sep a rest : string) : Prop :=
  ∀ a1 a2, a = a1 +:+ a2 → a2 ≠ EmptyString →
           String.prefix sep (a2 +:+ rest) = false.

Lemma NoStartIn_tail (sep : string) (c : ascii) (a rest : string) :
  NoStartIn sep (String c a) rest → NoStartIn sep a rest.
Proof.
  intros H a1 a2 -> Hne. apply (H (String c a1) a2); [reflexivity|exact Hne].
Qed.

(** The first separator closes the first piece. *)
Lemma split_go_first (sep a rest : string) :
  sep ≠ EmptyString → NoStartIn sep a (sep +:+ rest) →
  PyStr.split_go sep 0 (a +:+ sep +:+ rest) = a :: PyStr.split_go sep 0 rest.
Proof.
  intros Hne. induction a as [|c a IH]; intros H.
  - rewrite str_app_nil_l. apply split_go_hit, Hne.
  - rewrite str_app_cons, split_go_miss.
    + rewrite IH by (eapply NoStartIn_tail, H). reflexivity.
    + rewrite <- str_app_cons.
      apply (H EmptyString (String c a)); [reflexivity|discriminate].
Qed.

(** ** Running computations *)

Lemma run_bind_ok {A B : Type} (m : IO A) (f : A → IO B) (w w' : World) (a : A) :
  run m w = (Ok a, w') → run (m ≫= f) w = run (f a) w'.
Proof. unfold run, mbind, IO_bind. intros ->. reflexivity. Qed.

Lemma run_bind_raise {A B : Type} (m : IO A) (f : A → IO B) (w w' : World)
    (e : Exn) :
  run m w = (Raise e, w') → run (m ≫= f) w = (Raise e, w').
Proof. unfold run, mbind, IO_bind. intros ->. reflexivity. Qed.

Lemma run_ret {A : Type} (a : A) (w : World) : run (mret a) w = (Ok a, w).
Proof. reflexivity. Qed.

Lemma run_read_file_ok (path content : string) (w : World) :
  files w !! path = Some content → run (read_file path) w = (Ok content, w).
Proof. unfold run, read_file. intros ->. reflexivity. Qed.

Lemma run_read_file_missing (path : string) (w : World) :
  files w !! path = None →
  run (read_file path) w = (Raise (FileNotFoundError path), w).
Proof. unfold run, read_file. intros ->. reflexivity. Qed.

Lemma run_getitem_ok {A : Type} (l : list A) (i : nat) (x : A) (w : World) :
  l !! i = Some x → run (getitem l i) w = (Ok x, w).
Proof. unfold run, getitem. intros ->. reflexivity. Qed.

(** The world after [open(path, 'w')] and [write]. *)
Definition after_write (path content : string) (w : World) : World :=
  emit (EvWrite path content)
    (mkWorld (resource_root w) (<[path := content]> (files w)) (dirs w)
       (trace w)).

Lemma run_write_file (path content : string) (w : World) :
  run (write_file path content) w = (Ok tt, after_write path content w).
Proof. reflexivity. Qed.

(** The world after the directory check at the head of
    [generate_density_variants]. *)
Definition after_ensure_dir (output_dir : string) (w : World) : World :=
  if bool_decide (is_Some (files w !! output_dir) ∨ output_dir ∈ dirs w)
  then w
  else emit (EvMkdir output_dir)
         (mkWorld (resource_root w) (files w) ({[output_dir]} ∪ dirs w)
            (trace w)).

Lemma run_ensure_dir (output_dir : string) (w : World) :
  run (present ← path_exists output_dir;
       if negb present then makedirs output_dir else mret tt) w
  = (Ok tt, after_ensure_dir output_dir w).
Proof.
  unfold run, mbind, IO_bind, path_exists, makedirs, after_ensure_dir.
  destruct (bool_decide _) eqn:E; simpl; rewrite ?E; reflexivity.
Qed.

Lemma after_ensure_dir_files (output_dir : string) (w : World) :
  files (after_ensure_dir output_dir w) = files w.
Proof. unfold after_ensure_dir. destruct (bool_decide _); reflexivity. Qed.

Lemma after_ensure_dir_root (output_dir : string) (w : World) :
  resource_root (after_ensure_dir output_dir w) = resource_root w.
Proof. unfold after_ensure_dir. destruct (bool_decide _); reflexivity. Qed.

(** Write a list of files, first to last. *)
Definition write_all (outs : list (string * string)) (w : World) : World :=
  foldl (λ w pc, after_write pc.1 pc.2 w) w outs.

Lemma write_all_app (xs ys : list (string * string)) (w : World) :
  write_all (xs ++ ys) w = write_all ys (write_all xs w).
Proof. apply foldl_app. Qed.

Lemma write_all_root (outs : list (string * string)) (w : World) :
  resource_root (write_all outs w) = resource_root w.
Proof.
  revert w. induction outs as [|o outs IH]; intros w; [reflexivity|].
  simpl. rewrite IH. reflexivity.
Qed.

Lemma write_all_dirs (outs : list (string * string)) (w : World) :
  dirs (write_all outs w) = dirs w.
Proof.
  revert w. induction outs as [|o outs IH]; intros w; [reflexivity|].
  simpl. rewrite IH. reflexivity.
Qed.

Lemma write_all_trace (outs : list (string * string)) (w : World) :
  trace (write_all outs w)
  = trace w ++ map (λ pc, EvWrite pc.1 pc.2) outs.
Proof.
  revert w. induction outs as [|o outs IH]; intros w.
  - simpl. rewrite app_nil_r. reflexivity.
  - simpl. rewrite IH. simpl. rewrite <- app_assoc. reflexivity.
Qed.

(** ** What one call of the density-variant generator writes *)

(** The page for a content fragment. *)
Definition variant_page (css_content variant_class content : string) : string :=
  PyStr.replace (Templates.base_template css_content variant_class)
    "{{CONTENT}}" content.

(** The paired content of two short tasks under a variant token. *)
Definition pair_content (variant_class : string) (t1 t2 : Task) : string :=
  if PyStr.contains "zigzag" variant_class
  then Templates.zigzag_content (pretty (number t1)) (solution t1)
         (pretty (number t2)) (solution t2)
  else Templates.vertical_split_content (pretty (number t1)) (solution t1)
         (pretty (number t2)) (solution t2).

Definition short_outputs (output_dir variant_class css_content : string)
    (short_tasks : list Task) : list (string * string) :=
  match short_tasks with
  | t1 :: t2 :: _ =>
      [(path_join output_dir "combined_short.html",
        variant_page css_content variant_class (pair_content variant_class t1 t2))]
  | _ => []
  end.

Definition medium_outputs (output_dir variant_class css_content : string)
    (medium_tasks : list Task) : list (string * string) :=
  match medium_tasks with
  | t :: _ =>
      [(path_join output_dir "medium_single.html",
        variant_page css_content variant_class
          (Templates.medium_content (pretty (number t)) (solution t)))]
  | [] => []
  end.

(** The two parts shown of a long solution. *)
Definition shown_parts (sol : string) : string * string :=
  let parts := PyStr.split_go SPLIT_MARKER 0 sol in
  let parts :=
    if bool_decide (length parts < 2) then [sol; "Continued..."] else parts in
  (nth 0 parts EmptyString, nth 1 parts EmptyString).

Definition long_outputs (output_dir variant_class css_content : string)
    (long_tasks : list Task) : list (string * string) :=
  match long_tasks with
  | t :: _ =>
      [(path_join output_dir "long_split_part1.html",
        variant_page css_content variant_class
          (Templates.long_content1 (pretty (number t))
             (shown_parts (solution t)).1));
       (path_join output_dir "long_split_part2.html",
        variant_page css_content variant_class
          (Templates.long_content2 (pretty (number t))
             (shown_parts (solution t)).2))]
  | [] => []
  end.

Definition density_outputs (self : CompactFramework)
    (output_dir variant_class css_content : string) : list (string * string) :=
  short_outputs output_dir variant_class css_content
    (filter (λ t, category t = SHORT) (tasks self))
  ++ medium_outputs output_dir variant_class css_content
       (filter (λ t, category t = MEDIUM) (tasks self))
  ++ long_outputs output_dir variant_class css_content
       (filter (λ t, category t = LONG) (tasks self)).

Lemma run_path_exists (path : string) (w : World) :
  run (path_exists path) w
  = (Ok (bool_decide (is_Some (files w !! path) ∨ path ∈ dirs w)), w).
Proof. reflexivity. Qed.

Lemma run_makedirs_guarded (output_dir : string) (w : World) :
  run (if negb (bool_decide (is_Some (files w !! output_dir)
                             ∨ output_dir ∈ dirs w))
       then makedirs output_dir else mret tt) w
  = (Ok tt, after_ensure_dir output_dir w).
Proof.
  unfold run, makedirs, after_ensure_dir.
  destruct (bool_decide _) eqn:E; simpl; rewrite ?E; reflexivity.
Qed.

Lemma run_module_dir (w : World) : run module_dir w = (Ok (resource_root w), w).
Proof. reflexivity. Qed.

Lemma run_str_split_marker (sol : string) (w : World) :
  run (str_split sol SPLIT_MARKER) w
  = (Ok (PyStr.split_go SPLIT_MARKER 0 sol), w).
Proof. reflexivity. Qed.

Lemma run_short_block (output_dir variant_class css_content : string)
    (short_tasks : list Task) (w : World) :
  run (if bool_decide (2 ≤ length short_tasks) then
         t1 ← getitem short_tasks 0;
         t2 ← getitem short_tasks 1;
         let content :=
           if PyStr.contains "zigzag" variant_class
           then Templates.zigzag_content
                  (pretty (number t1)) (solution t1)
                  (pretty (number t2)) (solution t2)
           else Templates.vertical_split_content
                  (pretty (number t1)) (solution t1)
                  (pretty (number t2)) (solution t2) in
         write_file (path_join output_dir "combined_short.html")
           (PyStr.replace (Templates.base_template css_content variant_class)
              "{{CONTENT}}" content)
       else mret tt) w
  = (Ok tt,
     write_all (short_outputs output_dir variant_class css_content short_tasks) w).
Proof.
  destruct short_tasks as [|t1 [|t2 rest]].
  - rewrite bool_decide_false by (simpl; lia). apply run_ret.
  - rewrite bool_decide_false by (simpl; lia). apply run_ret.
  - rewrite bool_decide_true by (simpl; lia).
    erewrite run_bind_ok by (apply run_getitem_ok; reflexivity).
    erewrite run_bind_ok by (apply run_getitem_ok; reflexivity).
    cbv zeta. apply run_write_file.
Qed.

Lemma run_medium_block (output_dir variant_class css_content : string)
    (medium_tasks : list Task) (w : World) :
  run (if bool_decide (medium_tasks ≠ []) then
         t ← getitem medium_tasks 0;
         let content :=
           Templates.medium_content (pretty (number t)) (solution t) in
         write_file (path_join output_dir "medium_single.html")
           (PyStr.replace (Templates.base_template css_content variant_class)
              "{{CONTENT}}" content)
       else mret tt) w
  = (Ok tt,
     write_all (medium_outputs output_dir variant_class css_content medium_tasks) w).
Proof.
  destruct medium_tasks as [|t rest].
  - rewrite bool_decide_false by (intros H; apply H; reflexivity). apply run_ret.
  - rewrite bool_decide_true by discriminate.
    erewrite run_bind_ok by (apply run_getitem_ok; reflexivity).
    cbv zeta. apply run_write_file.
Qed.

(** The piece list after the fallback holds at least two pieces. *)
Lemma shown_parts_lookup (sol : string) :
  let parts := PyStr.split_go SPLIT_MARKER 0 sol in
  let parts' :=
    if bool_decide (length parts < 2) then [sol; "Continued..."] else parts in
  parts' !! 0 = Some (shown_parts sol).1
  ∧ parts' !! 1 = Some (shown_parts sol).2
  ∧ 1 < length parts'.
Proof.
  unfold shown_parts. cbv zeta.
  destruct (bool_decide (length (PyStr.split_go SPLIT_MARKER 0 sol) < 2)) eqn:E.
  - repeat split. simpl. lia.
  - apply bool_decide_eq_false in E.
    destruct (PyStr.split_go SPLIT_MARKER 0 sol) as [|p0 [|p1 ps]];
      simpl in E; try lia.
    repeat split. simpl. lia.
Qed.

Lemma run_long_block (output_dir variant_class css_content : string)
    (long_tasks : list Task) (w : World) :
  run (if bool_decide (long_tasks ≠ []) then
         t ← getitem long_tasks 0;
         parts ← str_split (solution t) SPLIT_MARKER;
         let parts :=
           if bool_decide (length parts < 2)
           then [solution t; "Continued..."] else parts in
         part0 ← getitem parts 0;
         let content1 := Templates.long_content1 (pretty (number t)) part0 in
         write_file (path_join output_dir "long_split_part1.html")
           (PyStr.replace (Templates.base_template css_content variant_class)
              "{{CONTENT}}" content1);;
         part1 ←
           (if bool_decide (1 < length parts) then getitem parts 1
            else mret EmptyString);
         let content2 := Templates.long_content2 (pretty (number t)) part1 in
         write_file (path_join output_dir "long_split_part2.html")
           (PyStr.replace (Templates.base_template css_content variant_class)
              "{{CONTENT}}" content2)
       else mret tt) w
  = (Ok tt,
     write_all (long_outputs output_dir variant_class css_content long_tasks) w).
Proof.
  destruct long_tasks as [|t rest].
  { rewrite bool_decide_false by (intros H; apply H; reflexivity). apply run_ret. }
  rewrite bool_decide_true by discriminate.
  erewrite run_bind_ok by (apply run_getitem_ok; reflexivity).
  erewrite run_bind_ok by apply run_str_split_marker.
  cbv zeta.
  destruct (shown_parts_lookup (solution t)) as (H0 & H1 & Hlen).
  cbv zeta in H0, H1, Hlen.
  erewrite run_bind_ok by (apply run_getitem_ok; exact H0).
  erewrite run_bind_ok by apply run_write_file.
  rewrite (bool_decide_true _ Hlen).
  erewrite run_bind_ok by (apply run_getitem_ok; exact H1).
  cbv zeta. apply run_write_file.
Qed.

(** With the style sheet in place the call succeeds, and the world it
    leaves is the one after the directory check with [density_outputs]
    written in order. *)
Lemma generate_density_variants_run (self : CompactFramework)
    (output_dir variant_class css_content : string) (w : World) :
  files w !! path_join (resource_root w) "watch_styles.css" = Some css_content →
  run (generate_density_variants self output_dir variant_class) w
  = (Ok tt,
     write_all (density_outputs self output_dir variant_class css_content)
       (after_ensure_dir output_dir w)).
Proof.
  intros Hcss. unfold generate_density_variants.
  erewrite run_bind_ok by apply run_path_exists.
  erewrite run_bind_ok by apply run_makedirs_guarded.
  erewrite run_bind_ok by apply run_module_dir.
  cbv zeta.
  erewrite run_bind_ok
    by (apply run_read_file_ok;
        rewrite after_ensure_dir_root, after_ensure_dir_files; exact Hcss).
  erewrite run_bind_ok by apply run_short_block.
  erewrite run_bind_ok by apply run_medium_block.
  rewrite run_long_block.
  unfold density_outputs. rewrite !write_all_app. reflexivity.
Qed.

(** Without the style sheet the call raises before any file is opened for
    writing; the directory check has already run. *)
Lemma generate_density_variants_no_css (self : CompactFramework)
    (output_dir variant_class : string) (w : World) :
  files w !! path_join (resource_root w) "watch_styles.css" = None →
  run (generate_density_variants self output_dir variant_class) w
  = (Raise (FileNotFoundError (path_join (resource_root w) "watch_styles.css")),
     after_ensure_dir output_dir w).
Proof.
  intros Hcss. unfold generate_density_variants.
  erewrite run_bind_ok by apply run_path_exists.
  erewrite run_bind_ok by apply run_makedirs_guarded.
  erewrite run_bind_ok by apply run_module_dir.
  cbv zeta.
  rewrite (run_bind_raise _ _ _ (after_ensure_dir output_dir w)
             (FileNotFoundError
                (path_join (resource_root w) "watch_styles.css")));
    [reflexivity|].
  rewrite after_ensure_dir_root. apply run_read_file_missing.
  rewrite after_ensure_dir_files. exact Hcss.
Qed.

(** ** Single-page assembly *)

(** The template [generate] reads. *)
Definition template_of (template_path : option string) (w : World) : string :=
  match template_path with
  | None => path_join (resource_root w) "template.html"
  | Some p => p
  end.

(** The blocks of the page, in page order. *)
Definition rendered_blocks (self : CompactFramework) : list string :=
  map to_html (_optimize_layout self).

(** The five lines of the console summary. *)
Definition summary_lines (self : CompactFramework) (output_path : string)
  : list string :=
  [ "✓ HTML документ сгенерирован: " +:+ output_path;
    "  Всего задач: " +:+ pretty (length (tasks self));
    "  - Коротких: " +:+
      pretty (length (filter (λ t, category t = SHORT) (tasks self)));
    "  - Средних: " +:+
      pretty (length (filter (λ t, category t = MEDIUM) (tasks self)));
    "  - Длинных: " +:+
      pretty (length (filter (λ t, category t = LONG) (tasks self))) ].

(** The world [generate] leaves when it has written [html]. *)
Definition after_generate (self : CompactFramework) (output_path html : string)
    (w : World) : World :=
  foldl (λ w line, emit (EvPrint line) w)
    (after_write output_path html w) (summary_lines self output_path).

Lemma run_template_path (template_path : option string) (w : World) :
  run (match template_path with
       | None => root ← module_dir; mret (path_join root "template.html")
       | Some p => mret p
       end) w
  = (Ok (template_of template_path w), w).
Proof. destruct template_path; reflexivity. Qed.

Lemma run_print (line : string) (w : World) :
  run (print line) w = (Ok tt, emit (EvPrint line) w).
Proof. reflexivity. Qed.

Lemma generate_run (self : CompactFramework) (output_path : string)
    (template_path : option string) (template : string) (w : World) :
  files w !! template_of template_path w = Some template →
  run (generate self output_path template_path) w
  = (Ok tt,
     after_generate self output_path
       (fill_template self template
          (PyStr.join PyStr.nl (rendered_blocks self))) w).
Proof.
  intros Ht. unfold generate.
  erewrite run_bind_ok by apply run_template_path.
  erewrite run_bind_ok by (apply run_read_file_ok; exact Ht).
  cbv zeta.
  erewrite run_bind_ok by apply run_write_file.
  do 4 (erewrite run_bind_ok by apply run_print).
  apply run_print.
Qed.

Lemma generate_no_template (self : CompactFramework) (output_path : string)
    (template_path : option string) (w : World) :
  files w !! template_of template_path w = None →
  run (generate self output_path template_path) w
  = (Raise (FileNotFoundError (template_of template_path w)), w).
Proof.
  intros Ht. unfold generate.
  erewrite run_bind_ok by apply run_template_path.
  apply run_bind_raise, run_read_file_missing, Ht.
Qed.

Lemma after_generate_files (self : CompactFramework) (output_path html : string)
    (w : World) :
  files (after_generate self output_path html w)
  = <[output_path := html]> (files w).
Proof. reflexivity. Qed.

Lemma after_generate_root (self : CompactFramework) (output_path html : string)
    (w : World) :
  resource_root (after_generate self output_path html w) = resource_root w.
Proof. reflexivity. Qed.

Lemma after_generate_trace (self : CompactFramework) (output_path html : string)
    (w : World) :
  trace (after_generate self output_path html w)
  = trace w ++ EvWrite output_path html
                 :: map EvPrint (summary_lines self output_path).
Proof.
  unfold after_generate, summary_lines, after_write, emit. simpl.
  rewrite <- !app_assoc. reflexivity.
Qed.

(** Every task falls in exactly one of the three buckets. *)
Lemma optimize_layout_perm (ts : list Task) :
  filter (λ t, category t = SHORT) ts
  ++ filter (λ t, category t = MEDIUM) ts
  ++ filter (λ t, category t = LONG) ts ≡ₚ ts.
Proof.
  induction ts as [|t ts IH]; [reflexivity|].
  rewrite !filter_cons.
  destruct (category t) eqn:E; simpl.
  - constructor. exact IH.
  - rewrite <- Permutation_middle. constructor. exact IH.
  - rewrite app_assoc, <- Permutation_middle, <- app_assoc.
    constructor. exact IH.
Qed.

Lemma filter_filter_same (c : TaskCategory) (ts : list Task) :
  filter (λ t, category t = c) (filter (λ t, category t = c) ts)
  = filter (λ t, category t = c) ts.
Proof.
  induction ts as [|t ts IH]; [reflexivity|].
  rewrite filter_cons. destruct (decide (category t = c)) as [E|E].
  - rewrite filter_cons, decide_True by exact E. f_equal. exact IH.
  - exact IH.
Qed.

Lemma filter_filter_other (c d : TaskCategory) (ts : list Task) :
  c ≠ d →
  filter (λ t, category t = c) (filter (λ t, category t = d) ts) = [].
Proof.
  intros Hne. induction ts as [|t ts IH]; [reflexivity|].
  rewrite filter_cons. destruct (decide (category t = d)) as [E|E].
  - rewrite filter_cons, decide_False by congruence. exact IH.
  - exact IH.
Qed.

(** Within a category the page keeps the order of the input. *)
Lemma optimize_layout_bucket (self : CompactFramework) (c : TaskCategory) :
  filter (λ t, category t = c) (_optimize_layout self)
  = filter (λ t, category t = c) (tasks self).
Proof.
  unfold _optimize_layout. cbv zeta. rewrite app_nil_l, !filter_app.
  destruct c.
  - rewrite filter_filter_same, !filter_filter_other by discriminate.
    rewrite !app_nil_r. reflexivity.
  - rewrite filter_filter_same, !filter_filter_other by discriminate.
    rewrite app_nil_r. reflexivity.
  - rewrite filter_filter_same, !filter_filter_other by discriminate.
    reflexivity.
Qed.

(** Rank of a category in the page order. *)
Definition rank (c : TaskCategory) : nat :=
  match c with SHORT => 0 | MEDIUM => 1 | LONG => 2 end.

Lemma Forall_filter_category (c : TaskCategory) (ts : list Task) :
  Forall (λ t, category t = c) (filter (λ t, category t = c) ts).
Proof.
  apply Forall_forall. intros t Ht. apply list_elem_of_filter in Ht. tauto.
Qed.

Lemma optimize_layout_eq (self : CompactFramework) :
  _optimize_layout self
  = filter (λ t, category t = SHORT) (tasks self)
    ++ filter (λ t, category t = MEDIUM) (tasks self)
    ++ filter (λ t, category t = LONG) (tasks self).
Proof.
  unfold _optimize_layout. cbv zeta.
  rewrite app_nil_l, <- app_assoc. reflexivity.
Qed.

(** The page [generate] writes from a template. *)
Definition generated_page (self : CompactFramework) (template : string) : string :=
  fill_template self template (PyStr.join PyStr.nl (rendered_blocks self)).

(** ** Paths and traces of the density-variant generator *)

(** The directory part [os.path.join] puts before a relative name. *)
Definition dir_prefix (a : string) : string :=
  if negb (PyStr.truthy a) || PyStr.endswith a "/" then a else a +:+ "/".

Lemma path_join_relative (a b : string) :
  PyStr.startswith b "/" = false → path_join a b = dir_prefix a +:+ b.
Proof.
  intros H. unfold path_join, dir_prefix. rewrite H.
  destruct (negb (PyStr.truthy a) || PyStr.endswith a "/"); [reflexivity|].
  rewrite str_app_assoc. reflexivity.
Qed.

Lemma path_join_ne (a b1 b2 : string) :
  PyStr.startswith b1 "/" = false → PyStr.startswith b2 "/" = false →
  b1 ≠ b2 → path_join a b1 ≠ path_join a b2.
Proof.
  intros H1 H2 Hne. rewrite !path_join_relative by assumption.
  intros E. apply Hne. eapply String.app_inj, E.
Qed.

(** The event of writing one output. *)
Definition write_event (pc : string * string) : Event := EvWrite pc.1 pc.2.

(** The contents a list of outputs holds for [path]. *)
Definition contents_at (path : string) (outs : list (string * string))
  : list string :=
  omap (λ pc, if decide (pc.1 = path) then Some pc.2 else None) outs.

Lemma writes_to_app (path : string) (xs ys : list Event) :
  writes_to path (xs ++ ys) = writes_to path xs ++ writes_to path ys.
Proof. apply omap_app. Qed.

Lemma writes_to_outputs (path : string) (outs : list (string * string)) :
  writes_to path (map write_event outs) = contents_at path outs.
Proof.
  unfold writes_to, contents_at.
  induction outs as [|[p c] outs IH]; [reflexivity|].
  cbn [map omap list_omap write_event fst snd].
  rewrite IH. reflexivity.
Qed.

Lemma written_paths_app (xs ys : list Event) :
  written_paths (xs ++ ys) = written_paths xs ++ written_paths ys.
Proof. apply omap_app. Qed.

Lemma written_paths_outputs (outs : list (string * string)) :
  written_paths (map write_event outs) = map fst outs.
Proof.
  unfold written_paths.
  induction outs as [|[p c] outs IH]; [reflexivity|].
  cbn [map omap list_omap write_event fst snd].
  rewrite IH. reflexivity.
Qed.

Lemma contents_at_app (path : string) (xs ys : list (string * string)) :
  contents_at path (xs ++ ys) = contents_at path xs ++ contents_at path ys.
Proof. apply omap_app. Qed.

(** The directory event of the call, if any. *)
Definition mkdir_events (output_dir : string) (w : World) : list Event :=
  if bool_decide (is_Some (files w !! output_dir) ∨ output_dir ∈ dirs w)
  then [] else [EvMkdir output_dir].

Lemma after_ensure_dir_trace (output_dir : string) (w : World) :
  trace (after_ensure_dir output_dir w) = trace w ++ mkdir_events output_dir w.
Proof.
  unfold after_ensure_dir, mkdir_events.
  destruct (bool_decide _); simpl; [rewrite app_nil_r|]; reflexivity.
Qed.

Lemma writes_to_mkdir (path output_dir : string) (w : World) :
  writes_to path (mkdir_events output_dir w) = [].
Proof. unfold mkdir_events. destruct (bool_decide _); reflexivity. Qed.

Lemma written_paths_mkdir (output_dir : string) (w : World) :
  written_paths (mkdir_events output_dir w) = [].
Proof. unfold mkdir_events. destruct (bool_decide _); reflexivity. Qed.

Lemma write_all_trace_events (outs : list (string * string)) (w : World) :
  trace (write_all outs w) = trace w ++ map write_event outs.
Proof. apply write_all_trace. Qed.

Lemma write_all_files_other (outs : list (string * string)) (w : World) :
  outs = [] → files (write_all outs w) = files w.
Proof. intros ->. reflexivity. Qed.

(** What a successful call added to the trace. *)
Lemma generate_density_variants_events (self : CompactFramework)
    (output_dir variant_class css_content : string) (w : World) :
  files w !! path_join (resource_root w) "watch_styles.css" = Some css_content →
  events_since w (run (generate_density_variants self output_dir variant_class) w).2
  = mkdir_events output_dir w
    ++ map write_event (density_outputs self output_dir variant_class css_content).
Proof.
  intros Hcss.
  rewrite (generate_density_variants_run _ _ _ _ _ Hcss).
  unfold events_since. cbn [snd].
  rewrite write_all_trace_events, after_ensure_dir_trace, <- app_assoc.
  apply drop_app_length.
Qed.

Ltac other_name := solve [reflexivity | discriminate].

Ltac path_decide :=
  repeat first
    [ rewrite decide_True by reflexivity
    | rewrite decide_False
        by (apply path_join_ne; [reflexivity | reflexivity | discriminate]) ].

Lemma contents_at_short (output_dir variant_class css_content name : string)
    (short_tasks : list Task) :
  PyStr.startswith name "/" = false → name ≠ "combined_short.html" →
  contents_at (path_join output_dir name)
    (short_outputs output_dir variant_class css_content short_tasks) = [].
Proof.
  intros Hrel Hne. destruct short_tasks as [|t1 [|t2 rest]]; try reflexivity.
  unfold short_outputs, contents_at. cbn [omap list_omap fst snd].
  rewrite decide_False
    by (apply path_join_ne; [reflexivity | exact Hrel | congruence]).
  reflexivity.
Qed.

Lemma contents_at_medium (output_dir variant_class css_content name : string)
    (medium_tasks : list Task) :
  PyStr.startswith name "/" = false → name ≠ "medium_single.html" →
  contents_at (path_join output_dir name)
    (medium_outputs output_dir variant_class css_content medium_tasks) = [].
Proof.
  intros Hrel Hne. destruct medium_tasks as [|t rest]; try reflexivity.
  unfold medium_outputs, contents_at. cbn [omap list_omap fst snd].
  rewrite decide_False
    by (apply path_join_ne; [reflexivity | exact Hrel | congruence]).
  reflexivity.
Qed.

Lemma contents_at_long (output_dir variant_class css_content name : string)
    (long_tasks : list Task) :
  PyStr.startswith name "/" = false →
  name ≠ "long_split_part1.html" → name ≠ "long_split_part2.html" →
  contents_at (path_join output_dir name)
    (long_outputs output_dir variant_class css_content long_tasks) = [].
Proof.
  intros Hrel Hne1 Hne2. destruct long_tasks as [|t rest]; try reflexivity.
  unfold long_outputs, contents_at. cbn [omap list_omap fst snd].
  rewrite !decide_False
    by (apply path_join_ne; [reflexivity | exact Hrel | congruence]).
  reflexivity.
Qed.

(** The pages of the short bucket. *)
Definition short_pages (variant_class css_content : string)
    (short_tasks : list Task) : list string :=
  match short_tasks with
  | t1 :: t2 :: _ =>
      [variant_page css_content variant_class (pair_content variant_class t1 t2)]
  | _ => []
  end.

(** The pages of the medium bucket. *)
Definition medium_pages (variant_class css_content : string)
    (medium_tasks : list Task) : list string :=
  match medium_tasks with
  | t :: _ =>
      [variant_page css_content variant_class
         (Templates.medium_content (pretty (number t)) (solution t))]
  | [] => []
  end.

(** The first and the second page of the long bucket. *)
Definition long_pages1 (variant_class css_content : string)
    (long_tasks : list Task) : list string :=
  match long_tasks with
  | t :: _ =>
      [variant_page css_content variant_class
         (Templates.long_content1 (pretty (number t))
            (shown_parts (solution t)).1)]
  | [] => []
  end.

Definition long_pages2 (variant_class css_content : string)
    (long_tasks : list Task) : list string :=
  match long_tasks with
  | t :: _ =>
      [variant_page css_content variant_class
         (Templates.long_content2 (pretty (number t))
            (shown_parts (solution t)).2)]
  | [] => []
  end.

(** File by file, what a successful call wrote. *)
Lemma generate_density_variants_writes (self : CompactFramework)
    (output_dir variant_class css_content : string) (w : World) :
  files w !! path_join (resource_root w) "watch_styles.css" = Some css_content →
  let evs :=
    events_since w
      (run (generate_density_variants self output_dir variant_class) w).2 in
  writes_to (path_join output_dir "combined_short.html") evs
  = short_pages variant_class css_content
      (filter (λ t, category t = SHORT) (tasks self))
  ∧ writes_to (path_join output_dir "medium_single.html") evs
    = medium_pages variant_class css_content
        (filter (λ t, category t = MEDIUM) (tasks self))
  ∧ writes_to (path_join output_dir "long_split_part1.html") evs
    = long_pages1 variant_class css_content
        (filter (λ t, category t = LONG) (tasks self))
  ∧ writes_to (path_join output_dir "long_split_part2.html") evs
    = long_pages2 variant_class css_content
        (filter (λ t, category t = LONG) (tasks self)).
Proof.
  intros Hcss evs. subst evs.
  rewrite (generate_density_variants_events _ _ _ _ _ Hcss).
  rewrite !writes_to_app, !writes_to_mkdir, !writes_to_outputs, !app_nil_l.
  unfold density_outputs. rewrite !contents_at_app.
  repeat split.
  - rewrite contents_at_medium, contents_at_long by other_name.
    rewrite !app_nil_r.
    destruct (filter _ (tasks self)) as [|t1 [|t2 rest]]; try reflexivity.
    unfold short_outputs, contents_at. cbn [omap list_omap fst snd].
    path_decide. reflexivity.
  - rewrite contents_at_short, contents_at_long by other_name.
    rewrite app_nil_l, app_nil_r.
    destruct (filter (λ t, category t = MEDIUM) (tasks self)) as [|t rest];
      try reflexivity.
    unfold medium_outputs, contents_at. cbn [omap list_omap fst snd].
    path_decide. reflexivity.
  - rewrite contents_at_short, contents_at_medium by other_name.
    rewrite !app_nil_l.
    destruct (filter (λ t, category t = LONG) (tasks self)) as [|t rest];
      try reflexivity.
    unfold long_outputs, contents_at. cbn [omap list_omap fst snd].
    path_decide. reflexivity.
  - rewrite contents_at_short, contents_at_medium by other_name.
    rewrite !app_nil_l.
    destruct (filter (λ t, category t = LONG) (tasks self)) as [|t rest];
      try reflexivity.
    unfold long_outputs, contents_at. cbn [omap list_omap fst snd].
    path_decide. reflexivity.
Qed.

(** ** Where the holes of the templates end up *)

(** The piece sought is an operand of the concatenation. *)
Ltac find_piece :=
  lazymatch goal with
  | |- Substring ?x (String.append ?a ?b) =>
      first [ exists EmptyString, b; reflexivity
            | apply Substring_app_l; find_piece ]
  | |- Substring ?x ?x => apply Substring_refl
  end.

(** The piece sought lies inside the last literal. *)
Ltac in_last_piece :=
  lazymatch goal with
  | |- Substring _ (String.append _ _) => apply Substring_app_l; in_last_piece
  | |- _ => apply contains_Substring; vm_compute; reflexivity
  end.

Lemma base_template_has_content (css_content variant_class : string) :
  Substring "{{CONTENT}}" (Templates.base_template css_content variant_class).
Proof. unfold Templates.base_template. in_last_piece. Qed.

Lemma variant_page_has_content (css_content variant_class content : string) :
  Substring content (variant_page css_content variant_class content).
Proof.
  unfold variant_page. apply replace_Substring; [discriminate|].
  apply base_template_has_content.
Qed.

Lemma zigzag_content_holes (n1 s1 n2 s2 : string) :
  Substring s1 (Templates.zigzag_content n1 s1 n2 s2)
  ∧ Substring s2 (Templates.zigzag_content n1 s1 n2 s2).
Proof.
  unfold Templates.zigzag_content. split.
  - find_piece.
  - find_piece.
Qed.

Lemma vertical_split_content_holes (n1 s1 n2 s2 : string) :
  Substring s1 (Templates.vertical_split_content n1 s1 n2 s2)
  ∧ Substring s2 (Templates.vertical_split_content n1 s1 n2 s2).
Proof.
  unfold Templates.vertical_split_content. split.
  - find_piece.
  - find_piece.
Qed.

Lemma pair_content_holes (variant_class : string) (t1 t2 : Task) :
  Substring (solution t1) (pair_content variant_class t1 t2)
  ∧ Substring (solution t2) (pair_content variant_class t1 t2).
Proof.
  unfold pair_content. destruct (PyStr.contains "zigzag" variant_class).
  - apply zigzag_content_holes.
  - apply vertical_split_content_holes.
Qed.

Lemma task_block_holes (all_classes n cat sol vis : string) :
  Substring sol (Templates.task_block all_classes n cat sol vis)
  ∧ Substring vis (Templates.task_block all_classes n cat sol vis)
  ∧ Substring all_classes (Templates.task_block all_classes n cat sol vis)
  ∧ Substring n (Templates.task_block all_classes n cat sol vis).
Proof. unfold Templates.task_block. repeat split; find_piece. Qed.

Lemma visualization_block_holes (svg : string) :
  Substring svg (Templates.visualization_block svg)
  ∧ Substring "task-visualization" (Templates.visualization_block svg).
Proof. unfold Templates.visualization_block. split; find_piece. Qed.

(** ** The split of a long solution *)

Lemma SPLIT_MARKER_nonempty : SPLIT_MARKER ≠ EmptyString.
Proof. intros H. vm_compute in H. discriminate. Qed.

(** No marker: the whole solution and the fallback text. *)
Lemma shown_parts_none (sol : string) :
  ¬ Substring SPLIT_MARKER sol →
  shown_parts sol = (sol, "Continued...").
Proof.
  intros Hno. unfold shown_parts. cbv zeta.
  rewrite split_go_absent.
  - reflexivity.
  - apply SPLIT_MARKER_nonempty.
  - destruct (PyStr.contains SPLIT_MARKER sol) eqn:E; [|reflexivity].
    apply contains_Substring in E. contradiction.
Qed.

(** Two pieces or more: the first two. *)
Lemma shown_parts_first_two (sol a b : string) (rest : list string) :
  PyStr.split_go SPLIT_MARKER 0 sol = a :: b :: rest →
  shown_parts sol = (a, b).
Proof.
  intros H. unfold shown_parts. cbv zeta. rewrite H.
  rewrite bool_decide_false by (simpl; lia). reflexivity.
Qed.

Lemma occurrences_zero_contains (sub s : string) :
  occurrences sub s = 0 → PyStr.contains sub s = false.
Proof.
  induction s as [|c s IH]; cbn [occurrences PyStr.contains]; intros H.
  - destruct (String.prefix sub EmptyString); [discriminate|reflexivity].
  - destruct (String.prefix sub (String c s)); [discriminate|].
    apply IH. exact H.
Qed.

Lemma contains_suffix (sub x s : string) :
  PyStr.contains sub (x +:+ s) = false → PyStr.contains sub s = false.
Proof.
  induction x as [|c x IH]; [tauto|].
  rewrite str_app_cons. cbn [PyStr.contains]. intros H.
  apply orb_false_iff in H as [_ H]. apply IH, H.
Qed.

Lemma occurrences_app_pos (sub a b : string) :
  0 < occurrences sub (a +:+ sub +:+ b).
Proof.
  induction a as [|c a IH].
  - rewrite str_app_nil_l.
    destruct (sub +:+ b) eqn:E; cbn [occurrences];
      rewrite <- E, prefix_app; lia.
  - rewrite str_app_cons. cbn [occurrences]. lia.
Qed.

(** A marker that occurs once, at the end of [a], starts nowhere inside
    [a] and occurs nowhere in [b]. *)
Lemma occurrences_once (sep a b : string) :
  sep ≠ EmptyString →
  occurrences sep (a +:+ sep +:+ b) = 1 →
  NoStartIn sep a (sep +:+ b) ∧ PyStr.contains sep b = false.
Proof.
  intros Hne. induction a as [|c a IH]; intros H.
  - split.
    + intros a1 a2 E Ha2. destruct a1, a2; try discriminate. contradiction.
    + rewrite str_app_nil_l in H.
      destruct sep as [|d sep]; [contradiction|].
      rewrite str_app_cons in H. cbn [occurrences] in H.
      rewrite <- str_app_cons, prefix_app in H.
      apply (contains_suffix _ sep), occurrences_zero_contains. lia.
  - rewrite str_app_cons in H. cbn [occurrences] in H.
    pose proof (occurrences_app_pos sep a b) as Hpos.
    destruct (String.prefix sep (String c (a +:+ sep +:+ b))) eqn:E; [lia|].
    destruct (IH ltac:(lia)) as [Hin Hb]. split; [|exact Hb].
    intros a1 a2 Ea Ha2. destruct a1 as [|d a1].
    + rewrite str_app_nil_l in Ea. subst a2. exact E.
    + rewrite str_app_cons in Ea. injection Ea as -> ->.
      apply (Hin a1 a2); [reflexivity|exact Ha2].
Qed.

(** One marker: the text before it and the text after it. *)
Lemma shown_parts_once (a b : string) :
  occurrences SPLIT_MARKER (a +:+ SPLIT_MARKER +:+ b) = 1 →
  shown_parts (a +:+ SPLIT_MARKER +:+ b) = (a, b).
Proof.
  intros Hu.
  destruct (occurrences_once _ _ _ SPLIT_MARKER_nonempty Hu) as [Ha Hb].
  apply (shown_parts_first_two _ _ _ []).
  rewrite split_go_first; [|apply SPLIT_MARKER_nonempty|exact Ha].
  rewrite split_go_absent; [reflexivity|apply SPLIT_MARKER_nonempty|exact Hb].
Qed.

(** Two markers or more: the text before the first and the text between
    the first and the second; what follows the second is in neither. *)
Lemma shown_parts_twice (a b c : string) :
  NoStartIn SPLIT_MARKER a (SPLIT_MARKER +:+ b +:+ SPLIT_MARKER +:+ c) →
  NoStartIn SPLIT_MARKER b (SPLIT_MARKER +:+ c) →
  shown_parts (a +:+ SPLIT_MARKER +:+ b +:+ SPLIT_MARKER +:+ c) = (a, b).
Proof.
  intros Ha Hb.
  apply (shown_parts_first_two _ a b (PyStr.split_go SPLIT_MARKER 0 c)).
  rewrite split_go_first; [|apply SPLIT_MARKER_nonempty|exact Ha].
  rewrite split_go_first; [|apply SPLIT_MARKER_nonempty|exact Hb].
  reflexivity.
Qed.

(** ** Tokens that cannot overlap *)

(** One of the two strings starts the other. *)
Definition compatible (u v : string) : bool :=
  String.prefix u v || String.prefix v u.

(** No non-empty end of [x] is compatible with [y]. *)
Fixpoint suffixes_clear (x y : string) : bool :=
  match x with
  | EmptyString => true
  | String _ x' => negb (compatible x y) && suffixes_clear x' y
  end.

(** An occurrence of [old] and an occurrence of [y] never share a
    character: [old] starts nowhere in an occurrence of [y], and [y] starts
    nowhere behind the first character of an occurrence of [old]. *)
Definition apart (old y : string) : bool :=
  suffixes_clear y old
  && match old with
     | EmptyString => false
     | String _ old' => suffixes_clear old' y
     end.

Lemma prefix_app_compatible (o u b : string) :
  String.prefix o (u +:+ b) = true → compatible u o = true.
Proof.
  unfold compatible. revert o. induction u as [|c u IH]; intros o H.
  - rewrite prefix_nil. reflexivity.
  - destruct o as [|d o]; [rewrite prefix_nil; apply orb_true_r|].
    rewrite str_app_cons, prefix_cons in H. rewrite !prefix_cons.
    destruct (ascii_dec d c) as [->|]; [|discriminate].
    destruct (ascii_dec c c); [|congruence].
    apply IH, H.
Qed.

Lemma suffixes_clear_spec (x y p u : string) :
  suffixes_clear x y = true → x = p +:+ u → u ≠ EmptyString →
  compatible u y = false.
Proof.
  revert x. induction p as [|c p IH]; intros x H -> Hu.
  - rewrite str_app_nil_l in H. destruct u as [|c u]; [contradiction|].
    cbn [suffixes_clear] in H. apply andb_true_iff in H as [H _].
    apply negb_true_iff in H. exact H.
  - rewrite str_app_cons in H. cbn [suffixes_clear] in H.
    apply andb_true_iff in H as [_ H]. apply (IH _ H eq_refl Hu).
Qed.

Lemma suffixes_clear_tail (c : ascii) (x y : string) :
  suffixes_clear (String c x) y = true → suffixes_clear x y = true.
Proof. cbn [suffixes_clear]. intros H. apply andb_true_iff in H. tauto. Qed.

(** The scan passes over an occurrence of [y] and copies it. *)
Lemma replace_go_through (old new y b : string) :
  suffixes_clear y old = true →
  PyStr.replace_go old new 0 (y +:+ b) = y +:+ PyStr.replace_go old new 0 b.
Proof.
  induction y as [|c y IH]; intros H; [reflexivity|].
  rewrite !str_app_cons, replace_go_miss.
  - rewrite IH by (eapply suffixes_clear_tail, H). reflexivity.
  - destruct (String.prefix old (String c (y +:+ b))) eqn:E; [|reflexivity].
    rewrite <- str_app_cons in E. apply prefix_app_compatible in E.
    cbn [suffixes_clear] in H. apply andb_true_iff in H as [H _].
    apply negb_true_iff in H. congruence.
Qed.

Lemma str_app_eq_app (a x o r : string) :
  a +:+ x = o +:+ r →
  (∃ a', a = o +:+ a' ∧ r = a' +:+ x)
  ∨ (∃ u, o = a +:+ u ∧ u ≠ EmptyString ∧ x = u +:+ r).
Proof.
  revert o. induction a as [|c a IH]; intros o H.
  - rewrite str_app_nil_l in H. destruct o as [|d o].
    + left. exists EmptyString. split; [reflexivity|]. symmetry. exact H.
    + right. exists (String d o). split; [reflexivity|].
      split; [discriminate|exact H].
  - destruct o as [|d o].
    + left. exists (String c a). split; [reflexivity|]. symmetry. exact H.
    + rewrite !str_app_cons in H. injection H as -> H.
      destruct (IH o H) as [(a' & -> & ->)|(u & -> & Hu & ->)].
      * left. exists a'. split; reflexivity.
      * right. exists u. split; [reflexivity|]. split; [exact Hu|reflexivity].
Qed.

(** Replacing [old] keeps every occurrence of a token apart from it. *)
Lemma replace_go_preserves (old new y : string) :
  apart old y = true →
  ∀ n a b, String.length a ≤ n →
           Substring y (PyStr.replace_go old new 0 (a +:+ y +:+ b)).
Proof.
  intros Hap. unfold apart in Hap. apply andb_true_iff in Hap as [Hy Ho].
  destruct old as [|d old]; [discriminate|].
  induction n as [|n IH]; intros a b Hlen.
  - destruct a; [|simpl in Hlen; lia].
    rewrite str_app_nil_l, replace_go_through by exact Hy.
    apply Substring_app_r, Substring_refl.
  - destruct a as [|c a].
    { rewrite str_app_nil_l, replace_go_through by exact Hy.
      apply Substring_app_r, Substring_refl. }
    destruct (String.prefix (String d old) (String c a +:+ y +:+ b)) eqn:E.
    + apply prefix_true_app in E as [r Hr].
      destruct (str_app_eq_app _ _ _ _ Hr) as [(a' & Ha & ->)|(u & Hu & Hne & Hx)].
      * rewrite Ha, str_app_assoc, replace_go_hit by discriminate.
        apply Substring_app_l, IH.
        apply (f_equal String.length) in Ha.
        rewrite str_app_length in Ha. simpl in Ha, Hlen. lia.
      * exfalso.
        rewrite str_app_cons in Hu. injection Hu as -> Hold.
        pose proof (suffixes_clear_spec _ _ _ _ Ho Hold Hne) as Hc.
        assert (Hp : String.prefix u (y +:+ b) = true)
          by (rewrite Hx; apply prefix_app).
        apply prefix_app_compatible in Hp.
        unfold compatible in Hc, Hp. rewrite orb_comm in Hp. congruence.
    + rewrite str_app_cons in E |- *. rewrite replace_go_miss by exact E.
      apply Substring_cons, IH. simpl in Hlen. lia.
Qed.

Lemma replace_preserves (s old new y : string) :
  apart old y = true → Substring y s → Substring y (PyStr.replace s old new).
Proof.
  intros Hap (a & b & ->).
  assert (old ≠ EmptyString).
  { intros ->. unfold apart in Hap. rewrite andb_false_r in Hap. discriminate. }
  rewrite replace_nonempty by assumption.
  apply (replace_go_preserves old new y Hap (String.length a)). lia.
Qed.

Lemma join_elem (sep x : string) (l : list string) :
  x ∈ l → Substring x (PyStr.join sep l).
Proof.
  unfold PyStr.join. induction l as [|y l IH]; intros H.
  - apply elem_of_nil in H. contradiction.
  - cbn [String.concat]. destruct l as [|z l].
    + apply list_elem_of_singleton in H as ->. apply Substring_refl.
    + apply elem_of_cons in H as [->|H].
      * apply Substring_app_r, Substring_refl.
      * apply Substring_app_l, Substring_app_l, IH, H.
Qed.

(** ** Text in which braces stay apart *)

Definition is_brace (c : ascii) : bool :=
  if ascii_dec c "{" then true else false.

(** Every opening brace is followed by a character that is not one. *)
Fixpoint braces_apart (t : string) : bool :=
  match t with
  | EmptyString => true
  | String c t' =>
      if is_brace c then
        match t' with
        | EmptyString => false
        | String d _ => negb (is_brace d) && braces_apart t'
        end
      else braces_apart t'
  end.

Lemma braces_apart_tail (c : ascii) (t : string) :
  braces_apart (String c t) = true → braces_apart t = true.
Proof.
  simpl. destruct (is_brace c); [|tauto].
  destruct t as [|d t]; [discriminate|].
  intros H. apply andb_true_iff in H. tauto.
Qed.

Lemma braces_apart_head (name : string) (c : ascii) (t rest : string) :
  braces_apart (String c t) = true →
  String.prefix (String "{" (String "{" name)) (String c (t +:+ rest)) = false.
Proof.
  intros H. rewrite prefix_cons.
  destruct (ascii_dec "{" c) as [<-|]; [|reflexivity].
  simpl in H. destruct t as [|d t]; [discriminate|].
  apply andb_true_iff in H as [Hd _].
  rewrite str_app_cons, prefix_cons.
  destruct (ascii_dec "{" d) as [<-|]; [discriminate|reflexivity].
Qed.

Lemma strip_text (name new t rest : string) :
  braces_apart t = true →
  PyStr.replace_go (String "{" (String "{" name)) new 0 (t +:+ rest)
  = t +:+ PyStr.replace_go (String "{" (String "{" name)) new 0 rest.
Proof.
  induction t as [|c t IH]; intros H; [reflexivity|].
  rewrite !str_app_cons, replace_go_miss
    by (apply braces_apart_head; exact H).
  rewrite IH by (eapply braces_apart_tail; exact H). reflexivity.
Qed.

Lemma braces_apart_app (a b : string) :
  braces_apart a = true → braces_apart b = true →
  braces_apart (a +:+ b) = true.
Proof.
  intros Ha Hb. induction a as [|c a IH]; [exact Hb|].
  pose proof (braces_apart_tail _ _ Ha) as Ha'.
  rewrite str_app_cons. simpl in Ha |- *.
  destruct (is_brace c); [|apply IH, Ha'].
  destruct a as [|d a]; [discriminate|].
  rewrite str_app_cons in *.
  apply andb_true_iff in Ha as [Hd _]. rewrite Hd. apply IH, Ha'.
Qed.

Lemma braces_apart_no_double (t : string) :
  braces_apart t = true → ¬ Substring "{{" t.
Proof.
  intros H. apply contains_false_not_Substring.
  induction t as [|c t IH]; [reflexivity|].
  cbn [PyStr.contains].
  rewrite (IH (braces_apart_tail _ _ H)), orb_false_r.
  pose proof (braces_apart_head EmptyString c t EmptyString H) as Hh.
  rewrite str_app_nil_r in Hh. exact Hh.
Qed.

(** ** Templates as text and tokens *)

(** The five tokens [generate] fills. *)
Inductive Token : Type :=
  | TOK_CUSTOM_STYLES
  | TOK_TITLE
  | TOK_AUTHOR
  | TOK_DATE
  | TOK_TASKS.

#[global] Instance Token_eq_dec : EqDecision Token.
Proof. solve_decision. Defined.

Definition token_text (k : Token) : string :=
  match k with
  | TOK_CUSTOM_STYLES => "{{CUSTOM_STYLES}}"
  | TOK_TITLE => "{{TITLE}}"
  | TOK_AUTHOR => "{{AUTHOR}}"
  | TOK_DATE => "{{DATE}}"
  | TOK_TASKS => "{{TASKS}}"
  end.

Definition all_tokens : list Token :=
  [TOK_CUSTOM_STYLES; TOK_TITLE; TOK_AUTHOR; TOK_DATE; TOK_TASKS].

(** A template read as a sequence of pieces of text and of tokens. *)
Inductive Piece : Type :=
  | Lit (s : string)
  | Hole (k : Token).

Definition piece_text (p : Piece) : string :=
  match p with
  | Lit s => s
  | Hole k => token_text k
  end.

Fixpoint render_pieces (ps : list Piece) : string :=
  match ps with
  | [] => EmptyString
  | p :: ps' => piece_text p +:+ render_pieces ps'
  end.

(** The text holds none of the five tokens and does not end with the
    beginning of one. *)
Definition clear_text (s : string) : bool :=
  forallb (λ k, suffixes_clear s (token_text k)) all_tokens.

Definition clear_piece (p : Piece) : bool :=
  match p with
  | Lit s => clear_text s
  | Hole _ => true
  end.

(** What [generate] puts in the place of each token. *)
Definition token_value (self : CompactFramework) (tasks_html : string)
    (k : Token) : string :=
  match k with
  | TOK_CUSTOM_STYLES => custom_styles self
  | TOK_TITLE => title self
  | TOK_AUTHOR => author self
  | TOK_DATE => date self
  | TOK_TASKS => tasks_html
  end.

Definition fill_piece (self : CompactFramework) (tasks_html : string)
    (p : Piece) : string :=
  match p with
  | Lit s => s
  | Hole k => token_value self tasks_html k
  end.

(** The pieces with every token replaced by its value. *)
Fixpoint filled_text (self : CompactFramework) (tasks_html : string)
    (ps : list Piece) : string :=
  match ps with
  | [] => EmptyString
  | p :: ps' => fill_piece self tasks_html p +:+ filled_text self tasks_html ps'
  end.

(** One substitution: the token [k] becomes the text [v]. *)
Definition fill_hole (k : Token) (v : string) (p : Piece) : Piece :=
  match p with
  | Lit s => Lit s
  | Hole j => if decide (j = k) then Lit v else Hole j
  end.

(** The pieces hold no token [k]. *)
Definition without_token (k : Token) (ps : list Piece) : bool :=
  forallb (λ p, match p with
                | Lit _ => true
                | Hole j => negb (bool_decide (j = k))
                end) ps.

(** The text around the tasks: the pieces filled, a token [{{TASKS}}]
    giving nothing. *)
Definition frame_text (self : CompactFramework) (ps : list Piece) : string :=
  filled_text self EmptyString ps.

(** The text occurs in order, one piece behind the other. *)
Fixpoint in_order (ps : list string) (s : string) : Prop :=
  match ps with
  | [] => True
  | p :: ps' => ∃ a b, s = a +:+ p +:+ b ∧ in_order ps' b
  end.

Lemma token_text_nonempty (k : Token) : token_text k ≠ EmptyString.
Proof. destruct k; discriminate. Qed.

Lemma token_clear (j k : Token) :
  j ≠ k → suffixes_clear (token_text j) (token_text k) = true.
Proof. destruct j, k; intros H; solve [congruence | vm_compute; reflexivity]. Qed.

Lemma clear_text_token (s : string) (k : Token) :
  clear_text s = true → suffixes_clear s (token_text k) = true.
Proof.
  unfold clear_text, all_tokens. cbn [forallb]. rewrite !andb_true_iff.
  destruct k; tauto.
Qed.

Lemma clear_text_nil : clear_text EmptyString = true.
Proof. reflexivity. Qed.

Lemma render_pieces_app (ps qs : list Piece) :
  render_pieces (ps ++ qs) = render_pieces ps +:+ render_pieces qs.
Proof.
  induction ps as [|p ps IH]; [reflexivity|].
  cbn [app render_pieces]. rewrite IH, str_app_assoc. reflexivity.
Qed.

Lemma filled_text_app (self : CompactFramework) (th : string)
    (ps qs : list Piece) :
  filled_text self th (ps ++ qs)
  = filled_text self th ps +:+ filled_text self th qs.
Proof.
  induction ps as [|p ps IH]; [reflexivity|].
  cbn [app filled_text]. rewrite IH, str_app_assoc. reflexivity.
Qed.

(** The scan of [replace] over a template given by its pieces. *)
Lemma replace_pieces (k : Token) (v : string) (ps : list Piece) :
  forallb clear_piece ps = true →
  PyStr.replace (render_pieces ps) (token_text k) v
  = render_pieces (map (fill_hole k v) ps).
Proof.
  intros Hc. rewrite replace_nonempty by apply token_text_nonempty.
  induction ps as [|p ps IH]; [reflexivity|].
  cbn [forallb] in Hc. apply andb_true_iff in Hc as [Hp Hc].
  cbn [map render_pieces]. destruct p as [s|j]; cbn [fill_hole piece_text].
  - rewrite replace_go_through by (apply clear_text_token, Hp).
    rewrite IH by exact Hc. reflexivity.
  - destruct (decide (j = k)) as [->|Hne]; cbn [piece_text].
    + rewrite replace_go_hit by apply token_text_nonempty.
      rewrite IH by exact Hc. reflexivity.
    + rewrite replace_go_through by (apply token_clear, Hne).
      rewrite IH by exact Hc. reflexivity.
Qed.

Lemma fill_hole_clear (k : Token) (v : string) (ps : list Piece) :
  clear_text v = true → forallb clear_piece ps = true →
  forallb clear_piece (map (fill_hole k v) ps) = true.
Proof.
  intros Hv. induction ps as [|p ps IH]; intros Hc; [reflexivity|].
  cbn [forallb] in Hc. apply andb_true_iff in Hc as [Hp Hc].
  cbn [map forallb]. rewrite (IH Hc), andb_true_r.
  destruct p as [s|j]; cbn [fill_hole]; [exact Hp|].
  destruct (decide (j = k)); [exact Hv|reflexivity].
Qed.

Lemma fill_all_holes (self : CompactFramework) (th : string)
    (ps : list Piece) :
  render_pieces
    (map (fill_hole TOK_TASKS th)
       (map (fill_hole TOK_DATE (date self))
          (map (fill_hole TOK_AUTHOR (author self))
             (map (fill_hole TOK_TITLE (title self))
                (map (fill_hole TOK_CUSTOM_STYLES (custom_styles self)) ps)))))
  = filled_text self th ps.
Proof.
  induction ps as [|p ps IH]; [reflexivity|].
  cbn [map render_pieces filled_text]. rewrite IH.
  destruct p as [s|[]]; reflexivity.
Qed.

(** [generate]'s five substitutions on a template whose text and whose
    values stay clear of the tokens: each token gets its value, and
    everything else is left as it is. *)
Lemma fill_template_pieces (self : CompactFramework) (th : string)
    (ps : list Piece) :
  forallb clear_piece ps = true →
  clear_text (custom_styles self) = true →
  clear_text (title self) = true →
  clear_text (author self) = true →
  clear_text (date self) = true →
  fill_template self (render_pieces ps) th = filled_text self th ps.
Proof.
  intros Hps Hcs Ht Ha Hd. unfold fill_template. cbv zeta.
  assert (Hfirst :
    (if PyStr.truthy (custom_styles self)
     then PyStr.replace (render_pieces ps) "{{CUSTOM_STYLES}}"
            (custom_styles self)
     else PyStr.replace (render_pieces ps) "{{CUSTOM_STYLES}}" EmptyString)
    = render_pieces
        (map (fill_hole TOK_CUSTOM_STYLES (custom_styles self)) ps)).
  { rewrite <- (replace_pieces TOK_CUSTOM_STYLES) by exact Hps.
    destruct (custom_styles self); reflexivity. }
  rewrite Hfirst.
  pose proof (fill_hole_clear TOK_CUSTOM_STYLES _ _ Hcs Hps) as H1.
  rewrite (replace_pieces TOK_TITLE) by exact H1.
  pose proof (fill_hole_clear TOK_TITLE _ _ Ht H1) as H2.
  rewrite (replace_pieces TOK_AUTHOR) by exact H2.
  pose proof (fill_hole_clear TOK_AUTHOR _ _ Ha H2) as H3.
  rewrite (replace_pieces TOK_DATE) by exact H3.
  pose proof (fill_hole_clear TOK_DATE _ _ Hd H3) as H4.
  rewrite (replace_pieces TOK_TASKS) by exact H4.
  apply fill_all_holes.
Qed.

Lemma filled_text_without_tasks (self : CompactFramework) (th : string)
    (ps : list Piece) :
  without_token TOK_TASKS ps = true →
  filled_text self th ps = frame_text self ps.
Proof.
  unfold frame_text. induction ps as [|p ps IH]; intros H; [reflexivity|].
  cbn [without_token forallb] in H. apply andb_true_iff in H as [Hp H].
  cbn [filled_text]. rewrite (IH H).
  destruct p as [s|[]]; try reflexivity. discriminate.
Qed.

Lemma filled_text_lit (self : CompactFramework) (th s : string)
    (ps : list Piece) :
  Lit s ∈ ps → Substring s (filled_text self th ps).
Proof.
  induction ps as [|p ps IH]; intros H.
  - apply elem_of_nil in H. contradiction.
  - cbn [filled_text]. apply elem_of_cons in H as [<-|H].
    + apply Substring_app_r, Substring_refl.
    + apply Substring_app_l, IH, H.
Qed.

Lemma filled_text_braces_apart (self : CompactFramework) (th : string)
    (ps : list Piece) :
  forallb (λ p, braces_apart (fill_piece self th p)) ps = true →
  braces_apart (filled_text self th ps) = true.
Proof.
  induction ps as [|p ps IH]; intros H; [reflexivity|].
  cbn [forallb] in H. apply andb_true_iff in H as [Hp H].
  cbn [filled_text]. apply braces_apart_app; [exact Hp|apply IH, H].
Qed.

Lemma in_order_app_r (ps : list string) (s t : string) :
  in_order ps s → in_order ps (s +:+ t).
Proof.
  revert s. induction ps as [|p ps IH]; intros s H; [exact I|].
  destruct H as (a & b & -> & H). exists a, (b +:+ t).
  split; [rewrite !str_app_assoc; reflexivity|apply IH, H].
Qed.

Lemma in_order_app_l (ps : list string) (s t : string) :
  in_order ps s → in_order ps (t +:+ s).
Proof.
  destruct ps as [|p ps]; intros H; [exact I|].
  destruct H as (a & b & -> & H). exists (t +:+ a), b.
  split; [rewrite !str_app_assoc; reflexivity|exact H].
Qed.

Lemma in_order_head (p : string) (ps : list string) (s : string) :
  in_order ps s → in_order (p :: ps) (p +:+ s).
Proof.
  intros H. exists EmptyString, s. split; [reflexivity|exact H].
Qed.

Lemma in_order_Substring (ps : list string) (s t : string) :
  in_order ps s → Substring s t → in_order ps t.
Proof.
  intros H (a & b & ->). apply in_order_app_l, in_order_app_r, H.
Qed.

(** The pieces sought are operands of the concatenation, in this order. *)
Ltac find_in_order :=
  lazymatch goal with
  | |- in_order [] _ => exact I
  | |- in_order (?p :: _) (String.append ?p _) =>
      apply in_order_head; find_in_order
  | |- in_order _ (String.append _ _) => apply in_order_app_l; find_in_order
  end.

(** A page holds a placeholder token: two opening braces, a name, two
    closing braces. *)
Definition has_placeholder (s : string) : Prop :=
  ∃ a name b, s = a +:+ "{{" +:+ name +:+ "}}" +:+ b.

(** *** The layouts of the density pages *)

(** The piece sought is a run of operands of the concatenation, its last
    one the beginning of a literal. *)
Ltac find_run :=
  first [ solve [ exists EmptyString; eexists;
                  rewrite str_app_nil_l, !str_app_assoc; reflexivity ]
        | apply Substring_app_l; find_run ].

(** A solution text as the whole of a region of class [math-content]. *)
Definition in_math_content (part : string) : string :=
  PyStr.dq +:+ "math-content" +:+ PyStr.dq +:+ ">" +:+ part +:+ "</div>".

(** The label of one half of a long task. *)
Definition half_label (number half : string) : string :=
  ">Task " +:+ number +:+ " (" +:+ half +:+ "/2)</div>".

Lemma long_content1_holes (n part : string) :
  Substring (in_math_content part) (Templates.long_content1 n part)
  ∧ Substring (half_label n "1") (Templates.long_content1 n part).
Proof.
  unfold Templates.long_content1, in_math_content, half_label.
  split; find_run.
Qed.

Lemma long_content2_holes (n part : string) :
  Substring (in_math_content part) (Templates.long_content2 n part)
  ∧ Substring (half_label n "2") (Templates.long_content2 n part).
Proof.
  unfold Templates.long_content2, in_math_content, half_label.
  split; find_run.
Qed.

(** Top and bottom: the separator with its line, then the first task in
    the region [task-top], then the second in [task-bottom]. *)
Lemma zigzag_content_order (n1 s1 n2 s2 : string) :
  in_order ["layout-zigzag"; "zigzag-separator"; "zigzag-line";
            "task-top"; n1; s1; "task-bottom"; n2; s2]
    (Templates.zigzag_content n1 s1 n2 s2).
Proof. unfold Templates.zigzag_content. find_in_order. Qed.

(** Left and right: the first task in the region [task-left], then the
    second in [task-right]. *)
Lemma vertical_split_content_order (n1 s1 n2 s2 : string) :
  in_order ["layout-vertical-split"; "task-left"; n1; s1;
            "task-right"; n2; s2]
    (Templates.vertical_split_content n1 s1 n2 s2).
Proof. unfold Templates.vertical_split_content. find_in_order. Qed.

(** ** The claims *)

(** C1, as amended.  When the template is text around one token
    [{{TASKS}}], and that text, the title, the author, the date and the
    styles hold none of the five tokens and do not end with the beginning of
    one, single-page assembly ([generate]) writes a page that is the filled text before the token,
    then one block per input task joined by newlines, then the filled text
    after it.  The tasks rendered are the input's in another order: as many
    as the input has, a permutation of it, each category in the input's
    order, and the categories in the order short, medium, long.  Every
    task's block occurs in the page and holds the task's solution. *)
Theorem C1_generate_one_block_per_task (self : CompactFramework)
    (output_path : string) (template_path : option string)
    (before after : list Piece) (w : World) :
  files w !! template_of template_path w
  = Some (render_pieces (before ++ Hole TOK_TASKS :: after)) →
  forallb clear_piece (before ++ after) = true →
  without_token TOK_TASKS (before ++ after) = true →
  clear_text (custom_styles self) = true →
  clear_text (title self) = true →
  clear_text (author self) = true →
  clear_text (date self) = true →
  let outcome := run (generate self output_path template_path) w in
  let page :=
    frame_text self before
    +:+ PyStr.join PyStr.nl (map to_html (_optimize_layout self))
    +:+ frame_text self after in
  outcome.1 = Ok tt
  ∧ files outcome.2 !! output_path = Some page
  ∧ _optimize_layout self
    = filter (λ t, category t = SHORT) (tasks self)
      ++ filter (λ t, category t = MEDIUM) (tasks self)
      ++ filter (λ t, category t = LONG) (tasks self)
  ∧ length (map to_html (_optimize_layout self)) = length (tasks self)
  ∧ _optimize_layout self ≡ₚ tasks self
  ∧ (∀ c, filter (λ t, category t = c) (_optimize_layout self)
          = filter (λ t, category t = c) (tasks self))
  ∧ (∀ i j ti tj,
       _optimize_layout self !! i = Some ti →
       _optimize_layout self !! j = Some tj →
       i ≤ j → rank (category ti) ≤ rank (category tj))
  ∧ (∀ t, t ∈ tasks self →
          Substring (to_html t) page ∧ Substring (solution t) (to_html t)).
Proof.
  intros Ht Hclear Hnone Hcs Hti Hau Hda outcome page. subst outcome.
  rewrite (generate_run _ _ _ _ _ Ht). cbn [fst snd].
  unfold without_token in Hnone. rewrite forallb_app in Hclear, Hnone.
  apply andb_true_iff in Hclear as [Hcb Hca].
  apply andb_true_iff in Hnone as [Hnb Hna].
  assert (Hperm : _optimize_layout self ≡ₚ tasks self)
    by (rewrite optimize_layout_eq; apply optimize_layout_perm).
  split; [reflexivity|].
  split.
  { rewrite after_generate_files, lookup_insert_eq. f_equal.
    rewrite fill_template_pieces; try assumption.
    - rewrite filled_text_app. cbn [filled_text fill_piece token_value].
      rewrite !filled_text_without_tasks by assumption. reflexivity.
    - rewrite forallb_app. cbn [forallb clear_piece].
      rewrite Hcb, Hca. reflexivity. }
  split; [apply optimize_layout_eq|].
  split; [rewrite length_map, Hperm; reflexivity|].
  split; [exact Hperm|].
  split; [apply optimize_layout_bucket|].
  split.
  { rewrite optimize_layout_eq.
    intros i j ti tj Hi Hj Hij.
    pose proof (Forall_filter_category SHORT (tasks self)) as Fs.
    pose proof (Forall_filter_category MEDIUM (tasks self)) as Fm.
    pose proof (Forall_filter_category LONG (tasks self)) as Fl.
    rewrite Forall_lookup in Fs, Fm, Fl.
    apply lookup_app_Some in Hi, Hj.
    destruct Hi as [Hi|[Hi1 Hi]], Hj as [Hj|[Hj1 Hj]].
    - rewrite (Fs _ _ Hi). simpl. lia.
    - rewrite (Fs _ _ Hi). simpl. lia.
    - apply lookup_lt_Some in Hj. lia.
    - apply lookup_app_Some in Hi, Hj.
      destruct Hi as [Hi|[Hi2 Hi]], Hj as [Hj|[Hj2 Hj]].
      + rewrite (Fm _ _ Hi), (Fm _ _ Hj). lia.
      + rewrite (Fm _ _ Hi), (Fl _ _ Hj). simpl. lia.
      + apply lookup_lt_Some in Hj. lia.
      + rewrite (Fl _ _ Hi), (Fl _ _ Hj). lia. }
  intros t Hin. split.
  - subst page. apply Substring_app_l, Substring_app_r, join_elem.
    apply list_elem_of_fmap. exists t. split; [reflexivity|].
    rewrite Hperm. exact Hin.
  - unfold to_html. cbv zeta. apply task_block_holes.
Qed.

(** C8.  For every category token other than short, medium and long,
    [create_task] returns a task of category medium. *)
Theorem C8_unknown_category_is_medium (number : Z)
    (category_token solution : string) (visualization_svg : option string) :
  category_token ≠ "short" → category_token ≠ "medium" →
  category_token ≠ "long" →
  category (create_task number category_token solution visualization_svg)
  = MEDIUM.
Proof.
  intros Hs Hm Hl. unfold create_task, category_map. cbv zeta. simpl.
  rewrite !lookup_insert_ne by congruence.
  rewrite lookup_empty. reflexivity.
Qed.

(** C3, as amended.  With the style sheet in place, one call of
    [generate_density_variants] succeeds for every task list, whatever
    buckets are present, and writes at most four files (one for the short
    bucket, one for the medium, two for the long); what is written for one
    bucket is the same for any other task list with the same tasks in that
    bucket. *)
Theorem C3_at_most_four_files_independent (self : CompactFramework)
    (output_dir variant_class css_content : string) (w : World) :
  files w !! path_join (resource_root w) "watch_styles.css" = Some css_content →
  let outcome := run (generate_density_variants self output_dir variant_class) w in
  let evs := events_since w outcome.2 in
  outcome.1 = Ok tt
  ∧ length (written_paths evs) ≤ 4
  ∧ ∀ self' : CompactFramework,
      let evs' :=
        events_since w
          (run (generate_density_variants self' output_dir variant_class) w).2 in
      (filter (λ t, category t = SHORT) (tasks self')
       = filter (λ t, category t = SHORT) (tasks self) →
       writes_to (path_join output_dir "combined_short.html") evs'
       = writes_to (path_join output_dir "combined_short.html") evs)
      ∧ (filter (λ t, category t = MEDIUM) (tasks self')
         = filter (λ t, category t = MEDIUM) (tasks self) →
         writes_to (path_join output_dir "medium_single.html") evs'
         = writes_to (path_join output_dir "medium_single.html") evs)
      ∧ (filter (λ t, category t = LONG) (tasks self')
         = filter (λ t, category t = LONG) (tasks self) →
         writes_to (path_join output_dir "long_split_part1.html") evs'
         = writes_to (path_join output_dir "long_split_part1.html") evs
         ∧ writes_to (path_join output_dir "long_split_part2.html") evs'
           = writes_to (path_join output_dir "long_split_part2.html") evs).
Proof.
  intros Hcss outcome evs.
  split; [subst outcome; rewrite (generate_density_variants_run _ _ _ _ _ Hcss);
          reflexivity|].
  split.
  - subst evs outcome.
    rewrite (generate_density_variants_events _ _ _ _ _ Hcss).
    rewrite written_paths_app, written_paths_mkdir, written_paths_outputs.
    rewrite app_nil_l, length_map. unfold density_outputs.
    rewrite !length_app.
    destruct (filter (λ t, category t = SHORT) (tasks self)) as [|? [|? ?]];
      destruct (filter (λ t, category t = MEDIUM) (tasks self));
      destruct (filter (λ t, category t = LONG) (tasks self));
      simpl; lia.
  - intros self' evs'.
    destruct (generate_density_variants_writes self output_dir variant_class
                css_content w Hcss) as (Hs & Hm & Hl1 & Hl2).
    destruct (generate_density_variants_writes self' output_dir variant_class
                css_content w Hcss) as (Hs' & Hm' & Hl1' & Hl2').
    cbv zeta in Hs, Hm, Hl1, Hl2, Hs', Hm', Hl1', Hl2'.
    subst evs evs' outcome.
    rewrite Hs, Hm, Hl1, Hl2, Hs', Hm', Hl1', Hl2'.
    split; [|split]; intros Heq; rewrite Heq;
      [reflexivity|reflexivity|split; reflexivity].
Qed.

(** C5.  When the solution of the first long task holds the split marker
    exactly once (the marker starts at one place of it),
    [long_split_part1.html] is the page whose region of class
    [math-content] holds the text before the marker, and
    [long_split_part2.html] the page whose region holds the text after it;
    when it holds no marker, part 1 shows the whole solution and part 2 the
    text [Continued...].  Either way each of the two files is written once,
    and the pages are labelled (1/2) and (2/2) with the task's number. *)
Theorem C5_long_split_parts (self : CompactFramework)
    (output_dir variant_class css_content : string) (w : World)
    (t : Task) (rest : list Task) :
  files w !! path_join (resource_root w) "watch_styles.css" = Some css_content →
  filter (λ t, category t = LONG) (tasks self) = t :: rest →
  let evs :=
    events_since w
      (run (generate_density_variants self output_dir variant_class) w).2 in
  let written1 := writes_to (path_join output_dir "long_split_part1.html") evs in
  let written2 := writes_to (path_join output_dir "long_split_part2.html") evs in
  (∀ a b, solution t = a +:+ SPLIT_MARKER +:+ b →
     occurrences SPLIT_MARKER (solution t) = 1 →
     ∃ page1 page2,
       written1 = [page1] ∧ written2 = [page2]
       ∧ page1 = variant_page css_content variant_class
                   (Templates.long_content1 (pretty (number t)) a)
       ∧ page2 = variant_page css_content variant_class
                   (Templates.long_content2 (pretty (number t)) b)
       ∧ Substring (in_math_content a) page1
       ∧ Substring (in_math_content b) page2
       ∧ Substring (half_label (pretty (number t)) "1") page1
       ∧ Substring (half_label (pretty (number t)) "2") page2)
  ∧ (¬ Substring SPLIT_MARKER (solution t) →
     ∃ page1 page2,
       written1 = [page1] ∧ written2 = [page2]
       ∧ page1 = variant_page css_content variant_class
                   (Templates.long_content1 (pretty (number t)) (solution t))
       ∧ page2 = variant_page css_content variant_class
                   (Templates.long_content2 (pretty (number t)) "Continued...")
       ∧ Substring (in_math_content (solution t)) page1
       ∧ Substring (in_math_content "Continued...") page2
       ∧ Substring (half_label (pretty (number t)) "1") page1
       ∧ Substring (half_label (pretty (number t)) "2") page2).
Proof.
  intros Hcss Hlong evs written1 written2.
  destruct (generate_density_variants_writes self output_dir variant_class
              css_content w Hcss) as (_ & _ & Hl1 & Hl2).
  cbv zeta in Hl1, Hl2. subst written1 written2 evs.
  rewrite Hl1, Hl2, Hlong. unfold long_pages1, long_pages2.
  assert (Hpages : ∀ p1 p2,
    let page1 := variant_page css_content variant_class
                   (Templates.long_content1 (pretty (number t)) p1) in
    let page2 := variant_page css_content variant_class
                   (Templates.long_content2 (pretty (number t)) p2) in
    Substring (in_math_content p1) page1
    ∧ Substring (in_math_content p2) page2
    ∧ Substring (half_label (pretty (number t)) "1") page1
    ∧ Substring (half_label (pretty (number t)) "2") page2).
  { intros p1 p2 page1 page2.
    destruct (long_content1_holes (pretty (number t)) p1) as [H1 L1].
    destruct (long_content2_holes (pretty (number t)) p2) as [H2 L2].
    split; [|split; [|split]];
      (eapply Substring_trans; [|apply variant_page_has_content]);
      assumption. }
  split.
  - intros a b Hsol Hu. rewrite Hsol in Hu |- *.
    rewrite (shown_parts_once a b Hu). cbn [fst snd].
    eexists _, _. split; [reflexivity|]. split; [reflexivity|].
    split; [reflexivity|]. split; [reflexivity|]. apply Hpages.
  - intros Hno. rewrite (shown_parts_none _ Hno). cbn [fst snd].
    eexists _, _. split; [reflexivity|]. split; [reflexivity|].
    split; [reflexivity|]. split; [reflexivity|]. apply Hpages.
Qed.

(** C6.  With two short tasks or more, [combined_short.html] is written
    once; it is the page of the first two short tasks in input order, holds
    the solution text of both, and is the same page for every task list
    whose short tasks begin with these two.  With fewer than two short
    tasks the file is not written. *)
Theorem C6_combined_short_first_two (self : CompactFramework)
    (output_dir variant_class css_content : string) (w : World) :
  files w !! path_join (resource_root w) "watch_styles.css" = Some css_content →
  let writes (fw : CompactFramework) :=
    writes_to (path_join output_dir "combined_short.html")
      (events_since w
         (run (generate_density_variants fw output_dir variant_class) w).2) in
  (∀ t1 t2 rest,
     filter (λ t, category t = SHORT) (tasks self) = t1 :: t2 :: rest →
     let page :=
       variant_page css_content variant_class
         (pair_content variant_class t1 t2) in
     writes self = [page]
     ∧ Substring (solution t1) page
     ∧ Substring (solution t2) page
     ∧ ∀ self' rest',
         filter (λ t, category t = SHORT) (tasks self') = t1 :: t2 :: rest' →
         writes self' = [page])
  ∧ (length (filter (λ t, category t = SHORT) (tasks self)) < 2 →
     writes self = []).
Proof.
  intros Hcss writes.
  assert (Hw : ∀ fw, writes fw
                     = short_pages variant_class css_content
                         (filter (λ t, category t = SHORT) (tasks fw))).
  { intros fw.
    destruct (generate_density_variants_writes fw output_dir variant_class
                css_content w Hcss) as (Hs & _).
    exact Hs. }
  split.
  - intros t1 t2 rest Hshort page. rewrite Hw, Hshort.
    split; [reflexivity|].
    destruct (pair_content_holes variant_class t1 t2) as [H1 H2].
    split; [eapply Substring_trans; [exact H1|apply variant_page_has_content]|].
    split; [eapply Substring_trans; [exact H2|apply variant_page_has_content]|].
    intros self' rest' Hshort'. rewrite Hw, Hshort'. reflexivity.
  - intros Hlen. rewrite Hw.
    destruct (filter (λ t, category t = SHORT) (tasks self)) as [|? [|? ?]];
      [reflexivity|reflexivity|simpl in Hlen; lia].
Qed.

(** C7.  For the same two short tasks, a variant token in which [zigzag]
    occurs gives [combined_short.html] the top/bottom layout: the page
    written holds, in this order, the diagonal separator with its line,
    the first task in the region [task-top] and the second in the region
    [task-bottom].  Any other token gives it the left/right layout: the
    page holds the first task in the region [task-left], then the second in
    [task-right]. *)
Theorem C7_zigzag_selects_layout (self : CompactFramework)
    (output_dir variant_class css_content : string) (w : World)
    (t1 t2 : Task) (rest : list Task) :
  files w !! path_join (resource_root w) "watch_styles.css" = Some css_content →
  filter (λ t, category t = SHORT) (tasks self) = t1 :: t2 :: rest →
  let written :=
    writes_to (path_join output_dir "combined_short.html")
      (events_since w
         (run (generate_density_variants self output_dir variant_class) w).2) in
  let top_bottom :=
    Templates.zigzag_content (pretty (number t1)) (solution t1)
      (pretty (number t2)) (solution t2) in
  let left_right :=
    Templates.vertical_split_content (pretty (number t1)) (solution t1)
      (pretty (number t2)) (solution t2) in
  (Substring "zigzag" variant_class →
   ∃ page,
     written = [page]
     ∧ page = variant_page css_content variant_class top_bottom
     ∧ Substring top_bottom page
     ∧ in_order ["layout-zigzag"; "zigzag-separator"; "zigzag-line";
                 "task-top"; pretty (number t1); solution t1;
                 "task-bottom"; pretty (number t2); solution t2] page)
  ∧ (¬ Substring "zigzag" variant_class →
     ∃ page,
       written = [page]
       ∧ page = variant_page css_content variant_class left_right
       ∧ Substring left_right page
       ∧ in_order ["layout-vertical-split";
                   "task-left"; pretty (number t1); solution t1;
                   "task-right"; pretty (number t2); solution t2] page).
Proof.
  intros Hcss Hshort written top_bottom left_right.
  destruct (generate_density_variants_writes self output_dir variant_class
              css_content w Hcss) as (Hs & _).
  cbv zeta in Hs. subst written. rewrite Hs, Hshort.
  unfold short_pages, pair_content.
  split.
  - intros Hz. apply contains_Substring in Hz. rewrite Hz.
    eexists. split; [reflexivity|]. split; [reflexivity|].
    split; [apply variant_page_has_content|].
    eapply in_order_Substring;
      [apply zigzag_content_order|apply variant_page_has_content].
  - intros Hz.
    destruct (PyStr.contains "zigzag" variant_class) eqn:E.
    { apply contains_Substring in E. contradiction. }
    eexists. split; [reflexivity|]. split; [reflexivity|].
    split; [apply variant_page_has_content|].
    eapply in_order_Substring;
      [apply vertical_split_content_order|apply variant_page_has_content].
Qed.

(** C10.  For a task list with fewer than two short tasks, no medium and
    no long task, and with the style sheet in place,
    [generate_density_variants] completes without error and writes no file;
    the output directory, if the path did not exist, has been created. *)
Theorem C10_no_output_still_creates_directory (self : CompactFramework)
    (output_dir variant_class css_content : string) (w : World) :
  files w !! path_join (resource_root w) "watch_styles.css" = Some css_content →
  length (filter (λ t, category t = SHORT) (tasks self)) < 2 →
  filter (λ t, category t = MEDIUM) (tasks self) = [] →
  filter (λ t, category t = LONG) (tasks self) = [] →
  let outcome := run (generate_density_variants self output_dir variant_class) w in
  outcome.1 = Ok tt
  ∧ written_paths (events_since w outcome.2) = []
  ∧ files outcome.2 = files w
  ∧ (¬ (is_Some (files w !! output_dir) ∨ output_dir ∈ dirs w) →
     dirs outcome.2 = {[output_dir]} ∪ dirs w
     ∧ events_since w outcome.2 = [EvMkdir output_dir])
  ∧ (is_Some (files w !! output_dir) ∨ output_dir ∈ dirs w →
     dirs outcome.2 = dirs w ∧ events_since w outcome.2 = []).
Proof.
  intros Hcss Hs Hm Hl outcome.
  assert (Hnone : density_outputs self output_dir variant_class css_content = []).
  { unfold density_outputs. rewrite Hm, Hl.
    destruct (filter (λ t, category t = SHORT) (tasks self)) as [|? [|? ?]];
      [reflexivity|reflexivity|simpl in Hs; lia]. }
  pose proof (generate_density_variants_events self output_dir variant_class
                css_content w Hcss) as Hev.
  fold outcome in Hev. rewrite Hnone, app_nil_r in Hev.
  assert (Hrun : outcome
                 = (Ok tt, after_ensure_dir output_dir w)).
  { subst outcome. rewrite (generate_density_variants_run _ _ _ _ _ Hcss).
    rewrite Hnone. reflexivity. }
  split; [rewrite Hrun; reflexivity|].
  split; [rewrite Hev; apply written_paths_mkdir|].
  split; [rewrite Hrun; apply after_ensure_dir_files|].
  rewrite Hev. rewrite Hrun. cbn [snd].
  unfold after_ensure_dir, mkdir_events.
  split; intros Hex.
  - rewrite bool_decide_false by exact Hex. split; reflexivity.
  - rewrite bool_decide_true by exact Hex. split; reflexivity.
Qed.

(** C9.  A generation call whose template or style sheet is not there
    raises the error to its caller before any file is opened for writing.
    [generate] without its template leaves the world as it was.
    [generate_density_variants] without its style sheet leaves every file
    as it was and writes none; it has looked at the output directory first,
    so a directory that was not there has been made by then, and that is
    all the call did. *)
Theorem C9_missing_resource_writes_nothing (self : CompactFramework)
    (output_path output_dir variant_class : string)
    (template_path : option string) (w : World) :
  (files w !! template_of template_path w = None →
   run (generate self output_path template_path) w
   = (Raise (FileNotFoundError (template_of template_path w)), w))
  ∧ (files w !! path_join (resource_root w) "watch_styles.css" = None →
     let outcome :=
       run (generate_density_variants self output_dir variant_class) w in
     outcome.1
     = Raise (FileNotFoundError
                (path_join (resource_root w) "watch_styles.css"))
     ∧ files outcome.2 = files w
     ∧ written_paths (events_since w outcome.2) = []
     ∧ events_since w outcome.2 = mkdir_events output_dir w
     ∧ dirs outcome.2
       = (if bool_decide (is_Some (files w !! output_dir)
                          ∨ output_dir ∈ dirs w)
          then dirs w else {[output_dir]} ∪ dirs w)).
Proof.
  split; [apply generate_no_template|].
  intros Hcss outcome. subst outcome.
  rewrite (generate_density_variants_no_css _ _ _ _ Hcss). cbn [fst snd].
  split; [reflexivity|]. split; [apply after_ensure_dir_files|].
  assert (Hev : events_since w (after_ensure_dir output_dir w)
                = mkdir_events output_dir w).
  { unfold events_since. rewrite after_ensure_dir_trace.
    apply drop_app_length. }
  split; [rewrite Hev; apply written_paths_mkdir|].
  split; [exact Hev|].
  unfold after_ensure_dir. destruct (bool_decide _); reflexivity.
Qed.

(** C4, as amended.  [generate] fills its five tokens and nothing else.
    On a template given as text and tokens, where the text, the title, the
    author, the date and the styles hold none of the five tokens and do not
    end with the beginning of one, the page written is the template with each token replaced by its value
    (the styles token by the styles added, the empty string when none were)
    and every piece of text left as it is.  So a token of another name
    stays in the page; and the page holds no two opening braces in a row
    when in every piece of text and in every value each opening brace is
    followed by a character that is not one. *)
Theorem C4_generate_fills_only_its_tokens (self : CompactFramework)
    (output_path : string) (template_path : option string)
    (ps : list Piece) (w : World) :
  files w !! template_of template_path w = Some (render_pieces ps) →
  forallb clear_piece ps = true →
  clear_text (custom_styles self) = true →
  clear_text (title self) = true →
  clear_text (author self) = true →
  clear_text (date self) = true →
  let outcome := run (generate self output_path template_path) w in
  let tasks_html := PyStr.join PyStr.nl (map to_html (_optimize_layout self)) in
  let page := filled_text self tasks_html ps in
  outcome.1 = Ok tt
  ∧ files outcome.2 !! output_path = Some page
  ∧ (∀ s, Lit s ∈ ps → Substring s page)
  ∧ (∀ name, Lit ("{{" +:+ name +:+ "}}") ∈ ps → has_placeholder page)
  ∧ (forallb (λ p, braces_apart (fill_piece self tasks_html p)) ps = true →
     ¬ Substring "{{" page ∧ ¬ has_placeholder page).
Proof.
  intros Ht Hclear Hcs Hti Hau Hda outcome tasks_html page. subst outcome.
  rewrite (generate_run _ _ _ _ _ Ht). cbn [fst snd].
  split; [reflexivity|].
  split.
  { rewrite after_generate_files, lookup_insert_eq. f_equal.
    apply fill_template_pieces; assumption. }
  split; [intros s Hs; apply filled_text_lit, Hs|].
  split.
  - intros name Hin.
    destruct (filled_text_lit self tasks_html _ _ Hin) as (a & b & Hp).
    exists a, name, b. fold page in Hp. rewrite Hp, !str_app_assoc.
    reflexivity.
  - intros Hb.
    assert (Hno : ¬ Substring "{{" page)
      by (apply braces_apart_no_double, filled_text_braces_apart, Hb).
    split; [exact Hno|].
    intros (a & name & b & Hp). apply Hno.
    exists a, (name +:+ "}}" +:+ b). exact Hp.
Qed.

(** ** Sample inputs *)

Definition sample_css : string := "body { margin: 0; }".

Definition sample_template : string :=
  "<html><head><title>{{TITLE}}</title><style>{{CUSTOM_STYLES}}</style></head>"
  +:+ "<body><h1>{{AUTHOR}}, {{DATE}}</h1>{{TASKS}}</body></html>".

(** A resource root holding the template and both style sheets. *)
Definition sample_world : World :=
  mkWorld "framework"
    (<["framework/template.html" := sample_template]>
       (<["framework/styles.css" := sample_css]>
          (<["framework/watch_styles.css" := sample_css]> ∅)))
    ∅ [].

(** A world with nothing in it. *)
Definition bare_world : World := mkWorld "framework" ∅ ∅ [].

(** Two short tasks, a medium one and a long one cut once. *)
Definition sample_framework : CompactFramework :=
  add_task
    (add_task
       (add_task
          (add_task (new_framework (Some "Sheet") None None)
             (create_task 1 "short" "A" None))
          (create_task 2 "short" "B" None))
       (create_task 3 "medium" "C" None))
    (create_task 4 "long" ("first" +:+ SPLIT_MARKER +:+ "second") None).

(** One short task only: below every bucket's minimum. *)
Definition sparse_framework : CompactFramework :=
  add_task (new_framework None None None) (create_task 1 "short" "A" None).

(** A long task whose solution holds the marker twice. *)
Definition two_marker_framework : CompactFramework :=
  add_task (new_framework None None None)
    (create_task 4 "long"
       ("first" +:+ SPLIT_MARKER +:+ "second" +:+ SPLIT_MARKER +:+ "third")
       None).

(** A world whose only file is the template. *)
Definition template_world (template : string) : World :=
  mkWorld "framework" (<["framework/template.html" := template]> ∅) ∅ [].

(** The sample template as text and tokens: what stands before the token
    [{{TASKS}}] and what stands behind it. *)
Definition sample_before : list Piece :=
  [Lit "<html><head><title>"; Hole TOK_TITLE; Lit "</title><style>";
   Hole TOK_CUSTOM_STYLES; Lit "</style></head><body><h1>"; Hole TOK_AUTHOR;
   Lit ", "; Hole TOK_DATE; Lit "</h1>"].

Definition sample_after : list Piece := [Lit "</body></html>"].

(** A template with a token [generate] does not fill. *)
Definition other_token_pieces : list Piece :=
  [Lit "<p>"; Hole TOK_TITLE; Lit "</p>"; Lit "{{CONTENT}}"; Hole TOK_TASKS].

(** Tasks given out of page order: long, short, medium, short. *)
Definition mixed_framework : CompactFramework :=
  add_task
    (add_task
       (add_task
          (add_task (new_framework (Some "Sheet") None None)
             (create_task 1 "long" "L" None))
          (create_task 2 "short" "A" None))
       (create_task 3 "medium" "M" None))
    (create_task 4 "short" "B" None).

(** A long task whose solution holds no marker. *)
Definition unmarked_framework : CompactFramework :=
  add_task (new_framework None None None)
    (create_task 5 "long" "whole" None).

(** A document whose title is the token [{{TASKS}}]. *)
Definition token_title_framework : CompactFramework :=
  add_task (new_framework (Some "{{TASKS}}") None None)
    (create_task 1 "short" "A" None).

(** C2: what the code does with two markers.  The second page holds the
    text between the first marker and the second; the text after the second
    marker is in neither page. *)
Theorem C2_text_after_second_marker_is_dropped :
  let evs :=
    events_since sample_world
      (run (generate_density_variants two_marker_framework "out" "v1")
         sample_world).2 in
  writes_to (path_join "out" "long_split_part1.html") evs
  = [variant_page sample_css "v1" (Templates.long_content1 "4" "first")]
  ∧ writes_to (path_join "out" "long_split_part2.html") evs
    = [variant_page sample_css "v1" (Templates.long_content2 "4" "second")]
  ∧ ¬ Substring "third"
        (variant_page sample_css "v1" (Templates.long_content1 "4" "first"))
  ∧ ¬ Substring "third"
        (variant_page sample_css "v1" (Templates.long_content2 "4" "second")).
Proof.
  cbv zeta. split; [|split; [|split]].
  - vm_compute. reflexivity.
  - vm_compute. reflexivity.
  - apply contains_false_not_Substring. vm_compute. reflexivity.
  - apply contains_false_not_Substring. vm_compute. reflexivity.
Qed.

(** ** The claims at sample inputs *)

Lemma C8_unknown_category_is_medium_witness :
  "huge" ≠ "short" ∧ "huge" ≠ "medium" ∧ "huge" ≠ "long"
  ∧ category (create_task 7 "huge" "A" None) = MEDIUM.
Proof.
  assert (Hs : "huge" ≠ "short") by discriminate.
  assert (Hm : "huge" ≠ "medium") by discriminate.
  assert (Hl : "huge" ≠ "long") by discriminate.
  split; [exact Hs|]. split; [exact Hm|]. split; [exact Hl|].
  exact (C8_unknown_category_is_medium 7 "huge" "A" None Hs Hm Hl).
Defined.

Lemma sample_css_readable :
  files sample_world !! path_join (resource_root sample_world) "watch_styles.css"
  = Some sample_css.
Proof. vm_compute. reflexivity. Defined.

(** The claim as stated fails on the sample: four files, not three. *)
Lemma C3_counterexample_four_files :
  ¬ (length
       (written_paths
          (events_since sample_world
             (run (generate_density_variants sample_framework "out" "v1")
                sample_world).2)) ≤ 3).
Proof. intros H. vm_compute in H. lia. Qed.

Lemma C3_at_most_four_files_independent_witness :
  files sample_world !! path_join (resource_root sample_world) "watch_styles.css"
  = Some sample_css
  ∧ (run (generate_density_variants sample_framework "out" "v1")
       sample_world).1 = Ok tt
  ∧ length
      (written_paths
         (events_since sample_world
            (run (generate_density_variants sample_framework "out" "v1")
               sample_world).2)) ≤ 4.
Proof.
  split; [exact sample_css_readable|].
  destruct (C3_at_most_four_files_independent sample_framework "out" "v1"
              sample_css sample_world sample_css_readable)
    as (Hok & Hlen & _).
  split; [exact Hok|exact Hlen].
Defined.

Lemma C6_combined_short_first_two_witness :
  let t1 := create_task 1 "short" "A" None in
  let t2 := create_task 2 "short" "B" None in
  let page := variant_page sample_css "v1" (pair_content "v1" t1 t2) in
  filter (λ t, category t = SHORT) (tasks sample_framework) = [t1; t2]
  ∧ writes_to (path_join "out" "combined_short.html")
      (events_since sample_world
         (run (generate_density_variants sample_framework "out" "v1")
            sample_world).2) = [page]
  ∧ Substring "A" page ∧ Substring "B" page
  ∧ length (filter (λ t, category t = SHORT) (tasks sparse_framework)) < 2
  ∧ writes_to (path_join "out" "combined_short.html")
      (events_since sample_world
         (run (generate_density_variants sparse_framework "out" "v1")
            sample_world).2) = [].
Proof.
  intros t1 t2 page.
  assert (Hshort : filter (λ t, category t = SHORT) (tasks sample_framework)
                   = [t1; t2]) by (vm_compute; reflexivity).
  assert (Hfew : length (filter (λ t, category t = SHORT)
                           (tasks sparse_framework)) < 2)
    by (vm_compute; lia).
  destruct (C6_combined_short_first_two sample_framework "out" "v1" sample_css
              sample_world sample_css_readable) as [Htwo _].
  destruct (Htwo t1 t2 [] Hshort) as (Hw & HA & HB & _).
  destruct (C6_combined_short_first_two sparse_framework "out" "v1" sample_css
              sample_world sample_css_readable) as [_ Hnone].
  split; [exact Hshort|]. split; [exact Hw|]. split; [exact HA|].
  split; [exact HB|]. split; [exact Hfew|exact (Hnone Hfew)].
Defined.

Lemma C10_no_output_still_creates_directory_witness :
  let outcome :=
    run (generate_density_variants sparse_framework "out" "v1") sample_world in
  length (filter (λ t, category t = SHORT) (tasks sparse_framework)) < 2
  ∧ ¬ (is_Some (files sample_world !! "out") ∨ "out" ∈ dirs sample_world)
  ∧ outcome.1 = Ok tt
  ∧ written_paths (events_since sample_world outcome.2) = []
  ∧ dirs outcome.2 = {["out"]} ∪ dirs sample_world
  ∧ events_since sample_world outcome.2 = [EvMkdir "out"].
Proof.
  intros outcome.
  assert (Hfew : length (filter (λ t, category t = SHORT)
                           (tasks sparse_framework)) < 2)
    by (vm_compute; lia).
  assert (Habsent : ¬ (is_Some (files sample_world !! "out")
                       ∨ "out" ∈ dirs sample_world)).
  { intros [[x Hx]|Hin].
    - vm_compute in Hx. discriminate.
    - cbn [dirs sample_world] in Hin. set_solver. }
  destruct (C10_no_output_still_creates_directory sparse_framework "out" "v1"
              sample_css sample_world sample_css_readable Hfew eq_refl eq_refl)
    as (Hok & Hnone & _ & Hmk & _).
  destruct (Hmk Habsent) as [Hdirs Hevs].
  split; [exact Hfew|]. split; [exact Habsent|]. split; [exact Hok|].
  split; [exact Hnone|]. split; [exact Hdirs|exact Hevs].
Defined.

(** The claim as stated fails without a condition on the template.  A
    template that holds no token [{{TASKS}}] gives a page with no block at
    all; and when the title is the text [{{TASKS}}], the page holds the
    block of the one task twice. *)
Lemma C1_counterexample_template_decides_the_blocks :
  let bare := run (generate sample_framework "out.html" None)
                (template_world "<html>{{TITLE}}</html>") in
  let twice := run (generate token_title_framework "out.html" None)
                 (template_world "{{TITLE}}|{{TASKS}}") in
  let block := to_html (create_task 1 "short" "A" None) in
  (bare.1 = Ok tt
   ∧ files bare.2 !! "out.html" = Some "<html>Sheet</html>"
   ∧ length (tasks sample_framework) = 4
   ∧ Forall (λ t, ¬ Substring (to_html t) "<html>Sheet</html>")
       (tasks sample_framework))
  ∧ (twice.1 = Ok tt
     ∧ tasks token_title_framework = [create_task 1 "short" "A" None]
     ∧ files twice.2 !! "out.html" = Some (block +:+ "|" +:+ block)).
Proof.
  intros bare twice block. split.
  - split; [vm_compute; reflexivity|].
    split; [vm_compute; reflexivity|].
    split; [reflexivity|].
    change (tasks sample_framework)
      with [create_task 1 "short" "A" None; create_task 2 "short" "B" None;
            create_task 3 "medium" "C" None;
            create_task 4 "long" ("first" +:+ SPLIT_MARKER +:+ "second") None].
    repeat apply Forall_cons_2; [| | | |apply Forall_nil_2];
      apply contains_false_not_Substring; vm_compute; reflexivity.
  - split; [vm_compute; reflexivity|].
    split; [reflexivity|].
    vm_compute. reflexivity.
Qed.

Lemma C1_generate_one_block_per_task_witness :
  let t1 := create_task 1 "long" "L" None in
  let t2 := create_task 2 "short" "A" None in
  let t3 := create_task 3 "medium" "M" None in
  let t4 := create_task 4 "short" "B" None in
  let outcome := run (generate mixed_framework "out.html" None) sample_world in
  tasks mixed_framework = [t1; t2; t3; t4]
  ∧ files sample_world !! template_of None sample_world
    = Some (render_pieces (sample_before ++ Hole TOK_TASKS :: sample_after))
  ∧ forallb clear_piece (sample_before ++ sample_after) = true
  ∧ without_token TOK_TASKS (sample_before ++ sample_after) = true
  ∧ clear_text (custom_styles mixed_framework) = true
  ∧ clear_text (title mixed_framework) = true
  ∧ clear_text (author mixed_framework) = true
  ∧ clear_text (date mixed_framework) = true
  ∧ outcome.1 = Ok tt
  ∧ files outcome.2 !! "out.html"
    = Some (frame_text mixed_framework sample_before
            +:+ PyStr.join PyStr.nl (map to_html [t2; t4; t3; t1])
            +:+ frame_text mixed_framework sample_after)
  ∧ Substring (to_html t1)
      (frame_text mixed_framework sample_before
       +:+ PyStr.join PyStr.nl (map to_html [t2; t4; t3; t1])
       +:+ frame_text mixed_framework sample_after).
Proof.
  intros t1 t2 t3 t4 outcome.
  assert (Hts : tasks mixed_framework = [t1; t2; t3; t4]) by reflexivity.
  assert (Ht : files sample_world !! template_of None sample_world
               = Some (render_pieces
                         (sample_before ++ Hole TOK_TASKS :: sample_after)))
    by (vm_compute; reflexivity).
  assert (Hc : forallb clear_piece (sample_before ++ sample_after) = true)
    by (vm_compute; reflexivity).
  assert (Hn : without_token TOK_TASKS (sample_before ++ sample_after) = true)
    by (vm_compute; reflexivity).
  assert (Hcs : clear_text (custom_styles mixed_framework) = true)
    by (vm_compute; reflexivity).
  assert (Hti : clear_text (title mixed_framework) = true)
    by (vm_compute; reflexivity).
  assert (Hau : clear_text (author mixed_framework) = true)
    by (vm_compute; reflexivity).
  assert (Hda : clear_text (date mixed_framework) = true)
    by (vm_compute; reflexivity).
  destruct (C1_generate_one_block_per_task mixed_framework "out.html" None
              sample_before sample_after sample_world Ht Hc Hn Hcs Hti Hau Hda)
    as (Hok & Hfile & _ & _ & _ & _ & _ & Hall).
  split; [exact Hts|]. split; [exact Ht|]. split; [exact Hc|].
  split; [exact Hn|]. split; [exact Hcs|]. split; [exact Hti|].
  split; [exact Hau|]. split; [exact Hda|]. split; [exact Hok|].
  split; [exact Hfile|].
  refine (proj1 (Hall t1 _)). rewrite Hts. apply list_elem_of_here.
Defined.

Lemma C5_long_split_parts_witness :
  let t := create_task 4 "long" ("first" +:+ SPLIT_MARKER +:+ "second") None in
  let u := create_task 5 "long" "whole" None in
  let written (self : CompactFramework) (name : string) :=
    writes_to (path_join "out" name)
      (events_since sample_world
         (run (generate_density_variants self "out" "v1") sample_world).2) in
  (filter (λ t, category t = LONG) (tasks sample_framework) = [t]
   ∧ occurrences SPLIT_MARKER (solution t) = 1
   ∧ ∃ page1 page2,
       written sample_framework "long_split_part1.html" = [page1]
       ∧ written sample_framework "long_split_part2.html" = [page2]
       ∧ Substring (in_math_content "first") page1
       ∧ Substring (in_math_content "second") page2)
  ∧ (filter (λ t, category t = LONG) (tasks unmarked_framework) = [u]
     ∧ ¬ Substring SPLIT_MARKER (solution u)
     ∧ ∃ page1 page2,
         written unmarked_framework "long_split_part1.html" = [page1]
         ∧ written unmarked_framework "long_split_part2.html" = [page2]
         ∧ Substring (in_math_content "whole") page1
         ∧ Substring (in_math_content "Continued...") page2).
Proof.
  intros t u written. split.
  - assert (Hlong : filter (λ t, category t = LONG) (tasks sample_framework)
                    = [t]) by (vm_compute; reflexivity).
    assert (Hone : occurrences SPLIT_MARKER (solution t) = 1)
      by (vm_compute; reflexivity).
    split; [exact Hlong|]. split; [exact Hone|].
    destruct (C5_long_split_parts sample_framework "out" "v1" sample_css
                sample_world t [] sample_css_readable Hlong) as [Honce _].
    destruct (Honce "first" "second" eq_refl Hone)
      as (page1 & page2 & H1 & H2 & _ & _ & Ha & Hb & _).
    exists page1, page2.
    split; [exact H1|]. split; [exact H2|]. split; [exact Ha|exact Hb].
  - assert (Hlong : filter (λ t, category t = LONG) (tasks unmarked_framework)
                    = [u]) by (vm_compute; reflexivity).
    assert (Hno : ¬ Substring SPLIT_MARKER (solution u))
      by (apply contains_false_not_Substring; vm_compute; reflexivity).
    split; [exact Hlong|]. split; [exact Hno|].
    destruct (C5_long_split_parts unmarked_framework "out" "v1" sample_css
                sample_world u [] sample_css_readable Hlong) as [_ Hnone].
    destruct (Hnone Hno) as (page1 & page2 & H1 & H2 & _ & _ & Ha & Hb & _).
    exists page1, page2.
    split; [exact H1|]. split; [exact H2|]. split; [exact Ha|exact Hb].
Defined.

Lemma C7_zigzag_selects_layout_witness :
  let t1 := create_task 1 "short" "A" None in
  let t2 := create_task 2 "short" "B" None in
  let written (variant_class : string) :=
    writes_to (path_join "out" "combined_short.html")
      (events_since sample_world
         (run (generate_density_variants sample_framework "out" variant_class)
            sample_world).2) in
  filter (λ t, category t = SHORT) (tasks sample_framework) = [t1; t2]
  ∧ Substring "zigzag" "v3-zigzag"
  ∧ (∃ page,
       written "v3-zigzag" = [page]
       ∧ in_order ["layout-zigzag"; "zigzag-separator"; "zigzag-line";
                   "task-top"; "1"; "A"; "task-bottom"; "2"; "B"] page)
  ∧ ¬ Substring "zigzag" "v1-standard"
  ∧ (∃ page,
       written "v1-standard" = [page]
       ∧ in_order ["layout-vertical-split"; "task-left"; "1"; "A";
                   "task-right"; "2"; "B"] page).
Proof.
  intros t1 t2 written.
  assert (Hshort : filter (λ t, category t = SHORT) (tasks sample_framework)
                   = [t1; t2]) by (vm_compute; reflexivity).
  assert (Hz : Substring "zigzag" "v3-zigzag")
    by (apply contains_Substring; vm_compute; reflexivity).
  assert (Hn : ¬ Substring "zigzag" "v1-standard")
    by (apply contains_false_not_Substring; vm_compute; reflexivity).
  destruct (C7_zigzag_selects_layout sample_framework "out" "v3-zigzag"
              sample_css sample_world t1 t2 [] sample_css_readable Hshort)
    as (Hzig & _).
  destruct (C7_zigzag_selects_layout sample_framework "out" "v1-standard"
              sample_css sample_world t1 t2 [] sample_css_readable Hshort)
    as (_ & Hsplit).
  destruct (Hzig Hz) as (pz & Hwz & _ & _ & Hoz).
  destruct (Hsplit Hn) as (ps & Hws & _ & _ & Hos).
  split; [exact Hshort|]. split; [exact Hz|].
  split; [exists pz; split; [exact Hwz|exact Hoz]|].
  split; [exact Hn|].
  exists ps. split; [exact Hws|exact Hos].
Defined.

Lemma C9_missing_resource_writes_nothing_witness :
  let outcome :=
    run (generate_density_variants sample_framework "out" "v1") bare_world in
  files bare_world !! template_of None bare_world = None
  ∧ run (generate sample_framework "out.html" None) bare_world
    = (Raise (FileNotFoundError "framework/template.html"), bare_world)
  ∧ files bare_world !! path_join (resource_root bare_world) "watch_styles.css"
    = None
  ∧ outcome.1 = Raise (FileNotFoundError "framework/watch_styles.css")
  ∧ files outcome.2 = files bare_world
  ∧ written_paths (events_since bare_world outcome.2) = []
  ∧ events_since bare_world outcome.2 = [EvMkdir "out"].
Proof.
  intros outcome.
  assert (Ht : files bare_world !! template_of None bare_world = None)
    by (vm_compute; reflexivity).
  assert (Hc : files bare_world
               !! path_join (resource_root bare_world) "watch_styles.css"
               = None) by (vm_compute; reflexivity).
  destruct (C9_missing_resource_writes_nothing sample_framework "out.html"
              "out" "v1" None bare_world) as (Hg & Hd).
  destruct (Hd Hc) as (Hraise & Hfiles & Hnone & Hev & _).
  split; [exact Ht|]. split; [exact (Hg Ht)|]. split; [exact Hc|].
  split; [exact Hraise|]. split; [exact Hfiles|]. split; [exact Hnone|].
  exact Hev.
Defined.

(** The claim as stated fails: a token [generate] does not fill is still in
    the page it writes. *)
Lemma C4_counterexample_other_token_left :
  let outcome := run (generate sample_framework "out.html" None)
                   (template_world "<p>{{CONTENT}}</p>") in
  outcome.1 = Ok tt
  ∧ files outcome.2 !! "out.html" = Some "<p>{{CONTENT}}</p>"
  ∧ has_placeholder "<p>{{CONTENT}}</p>".
Proof.
  intros outcome.
  split; [vm_compute; reflexivity|].
  split; [vm_compute; reflexivity|].
  exists "<p>", "CONTENT", "</p>". reflexivity.
Qed.

Lemma C4_generate_fills_only_its_tokens_witness :
  let w := template_world (render_pieces other_token_pieces) in
  let full := sample_before ++ Hole TOK_TASKS :: sample_after in
  let tasks_html :=
    PyStr.join PyStr.nl (map to_html (_optimize_layout sample_framework)) in
  (files w !! template_of None w = Some (render_pieces other_token_pieces)
   ∧ forallb clear_piece other_token_pieces = true
   ∧ clear_text (custom_styles sample_framework) = true
   ∧ clear_text (title sample_framework) = true
   ∧ clear_text (author sample_framework) = true
   ∧ clear_text (date sample_framework) = true
   ∧ files (run (generate sample_framework "out.html" None) w).2 !! "out.html"
     = Some ("<p>Sheet</p>{{CONTENT}}" +:+ tasks_html)
   ∧ has_placeholder ("<p>Sheet</p>{{CONTENT}}" +:+ tasks_html))
  ∧ (files sample_world !! template_of None sample_world
     = Some (render_pieces full)
     ∧ forallb clear_piece full = true
     ∧ forallb (λ p, braces_apart (fill_piece sample_framework tasks_html p))
         full = true
     ∧ files (run (generate sample_framework "out.html" None) sample_world).2
       !! "out.html"
       = Some (filled_text sample_framework tasks_html full)
     ∧ ¬ Substring "{{" (filled_text sample_framework tasks_html full)).
Proof.
  intros w full tasks_html.
  assert (Hcs : clear_text (custom_styles sample_framework) = true)
    by (vm_compute; reflexivity).
  assert (Hti : clear_text (title sample_framework) = true)
    by (vm_compute; reflexivity).
  assert (Hau : clear_text (author sample_framework) = true)
    by (vm_compute; reflexivity).
  assert (Hda : clear_text (date sample_framework) = true)
    by (vm_compute; reflexivity).
  split.
  - assert (Ht : files w !! template_of None w
                 = Some (render_pieces other_token_pieces))
      by (vm_compute; reflexivity).
    assert (Hc : forallb clear_piece other_token_pieces = true)
      by (vm_compute; reflexivity).
    destruct (C4_generate_fills_only_its_tokens sample_framework "out.html"
                None other_token_pieces w Ht Hc Hcs Hti Hau Hda)
      as (_ & Hfile & _ & Hleft & _).
    split; [exact Ht|]. split; [exact Hc|]. split; [exact Hcs|].
    split; [exact Hti|]. split; [exact Hau|]. split; [exact Hda|].
    split; [exact Hfile|].
    apply (Hleft "CONTENT").
    do 3 apply list_elem_of_further. apply list_elem_of_here.
  - assert (Ht : files sample_world !! template_of None sample_world
                 = Some (render_pieces full)) by (vm_compute; reflexivity).
    assert (Hc : forallb clear_piece full = true) by (vm_compute; reflexivity).
    assert (Hb : forallb
                   (λ p, braces_apart
                           (fill_piece sample_framework tasks_html p))
                   full = true) by (vm_compute; reflexivity).
    destruct (C4_generate_fills_only_its_tokens sample_framework "out.html"
                None full sample_world Ht Hc Hcs Hti Hau Hda)
      as (_ & Hfile & _ & _ & Hclean).
    split; [exact Ht|]. split; [exact Hc|]. split; [exact Hb|].
    split; [exact Hfile|]. exact (proj1 (Hclean Hb)).
Defined.

(** ** Further properties of the generator *)

(** *** The medium bucket *)

Lemma medium_content_hole (n s : string) :
  Substring s (Templates.medium_content n s)
  ∧ Substring "layout-adaptive" (Templates.medium_content n s).
Proof. unfold Templates.medium_content. split; find_piece. Qed.

(** X1.  With a medium task in the list, [medium_single.html] is written
    once: the adaptive page of the first medium task in input order, which
    holds that task's solution and is the same for every task list whose
    first medium task is this one.  With no medium task the file is not
    written. *)
Theorem X1_medium_single_first_only (self : CompactFramework)
    (output_dir variant_class css_content : string) (w : World) :
  files w !! path_join (resource_root w) "watch_styles.css" = Some css_content →
  let writes (fw : CompactFramework) :=
    writes_to (path_join output_dir "medium_single.html")
      (events_since w
         (run (generate_density_variants fw output_dir variant_class) w).2) in
  (∀ t rest,
     filter (λ t, category t = MEDIUM) (tasks self) = t :: rest →
     let page :=
       variant_page css_content variant_class
         (Templates.medium_content (pretty (number t)) (solution t)) in
     writes self = [page]
     ∧ Substring (solution t) page
     ∧ Substring "layout-adaptive" page
     ∧ ∀ self' rest',
         filter (λ t, category t = MEDIUM) (tasks self') = t :: rest' →
         writes self' = [page])
  ∧ (filter (λ t, category t = MEDIUM) (tasks self) = [] → writes self = []).
Proof.
  intros Hcss writes.
  assert (Hw : ∀ fw, writes fw
                     = medium_pages variant_class css_content
                         (filter (λ t, category t = MEDIUM) (tasks fw))).
  { intros fw.
    destruct (generate_density_variants_writes fw output_dir variant_class
                css_content w Hcss) as (_ & Hm & _).
    exact Hm. }
  split.
  - intros t rest Hmed page. rewrite Hw, Hmed.
    split; [reflexivity|].
    destruct (medium_content_hole (pretty (number t)) (solution t)) as [H1 H2].
    split; [eapply Substring_trans; [exact H1|apply variant_page_has_content]|].
    split; [eapply Substring_trans; [exact H2|apply variant_page_has_content]|].
    intros self' rest' Hmed'. rewrite Hw, Hmed'. reflexivity.
  - intros Hnone. rewrite Hw, Hnone. reflexivity.
Qed.

Lemma X1_medium_single_first_only_witness :
  let t := create_task 3 "medium" "C" None in
  let page :=
    variant_page sample_css "v1" (Templates.medium_content "3" "C") in
  filter (λ t, category t = MEDIUM) (tasks sample_framework) = [t]
  ∧ writes_to (path_join "out" "medium_single.html")
      (events_since sample_world
         (run (generate_density_variants sample_framework "out" "v1")
            sample_world).2) = [page]
  ∧ Substring "C" page.
Proof.
  intros t page.
  assert (Hmed : filter (λ t, category t = MEDIUM) (tasks sample_framework)
                 = [t]) by (vm_compute; reflexivity).
  destruct (X1_medium_single_first_only sample_framework "out" "v1"
              sample_css sample_world sample_css_readable) as [Hone _].
  destruct (Hone t [] Hmed) as (Hw & Hs & _).
  split; [exact Hmed|]. split; [exact Hw|exact Hs].
Defined.

(** *** The console summary *)

Lemma category_counts (ts : list Task) :
  length ts
  = length (filter (λ t, category t = SHORT) ts)
    + length (filter (λ t, category t = MEDIUM) ts)
    + length (filter (λ t, category t = LONG) ts).
Proof.
  rewrite <- (optimize_layout_perm ts) at 1.
  rewrite !length_app. lia.
Qed.

(** X3.  With the template readable, [generate] opens one file for
    writing, the output path, makes no directory, and then prints five
    lines: the path, the number of tasks and the number per category; the
    three category counts add up to the number of tasks. *)
Theorem X3_generate_one_write_and_summary (self : CompactFramework)
    (output_path : string) (template_path : option string)
    (template : string) (w : World) :
  files w !! template_of template_path w = Some template →
  let outcome := run (generate self output_path template_path) w in
  let short_count := length (filter (λ t, category t = SHORT) (tasks self)) in
  let medium_count := length (filter (λ t, category t = MEDIUM) (tasks self)) in
  let long_count := length (filter (λ t, category t = LONG) (tasks self)) in
  events_since w outcome.2
  = [ EvWrite output_path (generated_page self template);
      EvPrint ("✓ HTML документ сгенерирован: " +:+ output_path);
      EvPrint ("  Всего задач: " +:+ pretty (length (tasks self)));
      EvPrint ("  - Коротких: " +:+ pretty short_count);
      EvPrint ("  - Средних: " +:+ pretty medium_count);
      EvPrint ("  - Длинных: " +:+ pretty long_count) ]
  ∧ length (tasks self) = short_count + medium_count + long_count
  ∧ dirs outcome.2 = dirs w
  ∧ files outcome.2 = <[output_path := generated_page self template]> (files w).
Proof.
  intros Ht outcome short_count medium_count long_count. subst outcome.
  rewrite (generate_run _ _ _ _ _ Ht). cbn [snd].
  split.
  - unfold events_since. rewrite after_generate_trace, drop_app_length.
    reflexivity.
  - split; [apply category_counts|]. split; reflexivity.
Qed.

Lemma X3_generate_one_write_and_summary_witness :
  files sample_world !! template_of None sample_world = Some sample_template
  ∧ written_paths
      (events_since sample_world
         (run (generate sample_framework "out.html" None) sample_world).2)
    = ["out.html"]
  ∧ dirs (run (generate sample_framework "out.html" None) sample_world).2
    = dirs sample_world.
Proof.
  assert (H : files sample_world !! template_of None sample_world
              = Some sample_template) by (vm_compute; reflexivity).
  destruct (X3_generate_one_write_and_summary sample_framework "out.html" None
              sample_template sample_world H) as (Hev & _ & Hd & _).
  split; [exact H|]. split; [|exact Hd].
  rewrite Hev. reflexivity.
Defined.

(** *** Generating again *)

(** X4.  Generating a second time into the same path, from the world the
    first call left and with the output path other than the template's,
    succeeds again and leaves every file as the first call left it. *)
Theorem X4_generate_again_same_files (self : CompactFramework)
    (output_path : string) (template_path : option string)
    (template : string) (w : World) :
  files w !! template_of template_path w = Some template →
  output_path ≠ template_of template_path w →
  let first := run (generate self output_path template_path) w in
  let second := run (generate self output_path template_path) first.2 in
  first.1 = Ok tt
  ∧ second.1 = Ok tt
  ∧ files second.2 = files first.2
  ∧ files second.2 !! output_path = Some (generated_page self template).
Proof.
  intros Ht Hne first second. subst second first.
  rewrite (generate_run _ _ _ _ _ Ht). cbn [fst snd].
  assert (Ht' : files (after_generate self output_path
                         (generated_page self template) w)
                !! template_of template_path
                     (after_generate self output_path
                        (generated_page self template) w)
                = Some template).
  { rewrite after_generate_files.
    replace (template_of template_path
               (after_generate self output_path
                  (generated_page self template) w))
      with (template_of template_path w)
      by (destruct template_path; reflexivity).
    rewrite lookup_insert_ne by exact Hne. exact Ht. }
  rewrite (generate_run _ _ _ _ _ Ht'). cbn [fst snd].
  rewrite !after_generate_files.
  split; [reflexivity|]. split; [reflexivity|].
  split; [apply insert_insert_eq|].
  apply lookup_insert_eq.
Qed.

Lemma X4_generate_again_same_files_witness :
  let first := run (generate sample_framework "out.html" None) sample_world in
  let second := run (generate sample_framework "out.html" None) first.2 in
  files sample_world !! template_of None sample_world = Some sample_template
  ∧ "out.html" ≠ template_of None sample_world
  ∧ second.1 = Ok tt
  ∧ files second.2 = files first.2.
Proof.
  intros first second.
  assert (H : files sample_world !! template_of None sample_world
              = Some sample_template) by (vm_compute; reflexivity).
  assert (Hne : "out.html" ≠ template_of None sample_world)
    by (vm_compute; discriminate).
  destruct (X4_generate_again_same_files sample_framework "out.html" None
              sample_template sample_world H Hne) as (_ & Hok & Hsame & _).
  split; [exact H|]. split; [exact Hne|]. split; [exact Hok|exact Hsame].
Defined.

(** *** A template without the tokens *)

Lemma replace_absent (s old new : string) :
  ¬ Substring old s → old ≠ EmptyString → PyStr.replace s old new = s.
Proof.
  intros Hno Hne. rewrite replace_nonempty by exact Hne.
  apply replace_go_absent.
  destruct (PyStr.contains old s) eqn:E; [|reflexivity].
  apply contains_Substring in E. contradiction.
Qed.

(** X6.  A template that holds none of the five tokens [generate] fills is
    written to the output path as it is: title, author, date, styles and
    task blocks are all left out without an error. *)
Theorem X6_template_without_tokens_written_verbatim (self : CompactFramework)
    (output_path : string) (template_path : option string)
    (template : string) (w : World) :
  files w !! template_of template_path w = Some template →
  ¬ Substring "{{CUSTOM_STYLES}}" template →
  ¬ Substring "{{TITLE}}" template →
  ¬ Substring "{{AUTHOR}}" template →
  ¬ Substring "{{DATE}}" template →
  ¬ Substring "{{TASKS}}" template →
  let outcome := run (generate self output_path template_path) w in
  outcome.1 = Ok tt ∧ files outcome.2 !! output_path = Some template.
Proof.
  intros Ht Hc Hti Ha Hd Hta outcome. subst outcome.
  rewrite (generate_run _ _ _ _ _ Ht). cbn [fst snd].
  split; [reflexivity|].
  rewrite after_generate_files, lookup_insert_eq. f_equal.
  unfold fill_template. cbv zeta.
  assert (E : (if PyStr.truthy (custom_styles self)
               then PyStr.replace template "{{CUSTOM_STYLES}}"
                      (custom_styles self)
               else PyStr.replace template "{{CUSTOM_STYLES}}" EmptyString)
              = template).
  { destruct (PyStr.truthy (custom_styles self));
      apply replace_absent; [exact Hc|discriminate|exact Hc|discriminate]. }
  rewrite E.
  rewrite (replace_absent template "{{TITLE}}") by (assumption || discriminate).
  rewrite (replace_absent template "{{AUTHOR}}") by (assumption || discriminate).
  rewrite (replace_absent template "{{DATE}}") by (assumption || discriminate).
  apply replace_absent; [exact Hta|discriminate].
Qed.

Lemma not_Substring_by_scan (sub s : string) :
  PyStr.contains sub s = false → ¬ Substring sub s.
Proof. apply contains_false_not_Substring. Qed.

Lemma X6_template_without_tokens_written_verbatim_witness :
  let w :=
    mkWorld "framework" (<["plain.html" := "<p>no tokens</p>"]> ∅) ∅ [] in
  let outcome :=
    run (generate sample_framework "out.html" (Some "plain.html")) w in
  files w !! template_of (Some "plain.html") w = Some "<p>no tokens</p>"
  ∧ outcome.1 = Ok tt
  ∧ files outcome.2 !! "out.html" = Some "<p>no tokens</p>".
Proof.
  intros w outcome.
  assert (H : files w !! template_of (Some "plain.html") w
              = Some "<p>no tokens</p>") by (vm_compute; reflexivity).
  split; [exact H|].
  apply (X6_template_without_tokens_written_verbatim sample_framework
           "out.html" (Some "plain.html") "<p>no tokens</p>" w H);
    apply not_Substring_by_scan; vm_compute; reflexivity.
Defined.

(** *** Building the document context *)

(** The styles given, each closed by a newline, in call order. *)
Fixpoint styles_text (styles : list string) : string :=
  match styles with
  | [] => EmptyString
  | s :: rest => s +:+ PyStr.nl +:+ styles_text rest
  end.

(** X8.  Tasks added one after another are kept in the order they were
    added, behind the tasks already there; style fragments added one after
    another are appended in call order, each closed by a newline.  Neither
    operation touches the other field or the title, author and date. *)
Theorem X8_context_accumulates_in_call_order (self : CompactFramework)
    (new_tasks : list Task) (new_styles : list string) :
  let with_tasks := foldl add_task self new_tasks in
  let with_styles := foldl add_custom_styles self new_styles in
  tasks with_tasks = tasks self ++ new_tasks
  ∧ custom_styles with_tasks = custom_styles self
  ∧ custom_styles with_styles = custom_styles self +:+ styles_text new_styles
  ∧ tasks with_styles = tasks self
  ∧ (title with_tasks, author with_tasks, date with_tasks)
    = (title self, author self, date self)
  ∧ (title with_styles, author with_styles, date with_styles)
    = (title self, author self, date self).
Proof.
  cbv zeta.
  assert (Ht : ∀ ts fw,
            tasks (foldl add_task fw ts) = tasks fw ++ ts
            ∧ custom_styles (foldl add_task fw ts) = custom_styles fw
            ∧ (title (foldl add_task fw ts), author (foldl add_task fw ts),
               date (foldl add_task fw ts))
              = (title fw, author fw, date fw)).
  { induction ts as [|t ts IH]; intros fw.
    - simpl. rewrite app_nil_r. auto.
    - simpl. destruct (IH (add_task fw t)) as (H1 & H2 & H3).
      rewrite H1, H2, H3. simpl. rewrite <- app_assoc. auto. }
  assert (Hs : ∀ ss fw,
            custom_styles (foldl add_custom_styles fw ss)
            = custom_styles fw +:+ styles_text ss
            ∧ tasks (foldl add_custom_styles fw ss) = tasks fw
            ∧ (title (foldl add_custom_styles fw ss),
               author (foldl add_custom_styles fw ss),
               date (foldl add_custom_styles fw ss))
              = (title fw, author fw, date fw)).
  { induction ss as [|s ss IH]; intros fw.
    - simpl. rewrite str_app_nil_r. auto.
    - simpl. destruct (IH (add_custom_styles fw s)) as (H1 & H2 & H3).
      rewrite H1, H2, H3. simpl. rewrite !str_app_assoc. auto. }
  destruct (Ht new_tasks self) as (H1 & H2 & H3).
  destruct (Hs new_styles self) as (H4 & H5 & H6).
  auto 10.
Qed.

(** *** Constructing a task *)

(** X9.  [create_task] given the name of a category returns a task of that
    category, with the number, the solution and the illustration it was
    given and with no extra style class. *)
Theorem X9_create_task_keeps_its_arguments (c : TaskCategory) (n : Z)
    (sol : string) (svg : option string) :
  let t := create_task n (value c) sol svg in
  category t = c ∧ number t = n ∧ solution t = sol
  ∧ visualization_svg t = svg ∧ custom_class t = EmptyString.
Proof.
  cbv zeta. split; [|auto].
  destruct c; vm_compute; reflexivity.
Qed.

(** *** Rendering a task *)

(** The same task without its illustration. *)
Definition without_illustration (t : Task) : Task :=
  mkTask (number t) (category t) (solution t) None (custom_class t).

(** X10.  The block of a task holds its solution as given; it holds the
    illustration, in a region of class [task-visualization], when the
    illustration is a non-empty string; an empty illustration is rendered
    like none; and with no extra style class the class list is [task] and
    [task-] followed by the category name, with no trailing blank. *)
Theorem X10_task_block_contents (t : Task) :
  Substring (solution t) (to_html t)
  ∧ (∀ svg, visualization_svg t = Some svg → svg ≠ EmptyString →
       Substring svg (to_html t)
       ∧ Substring "task-visualization" (to_html t))
  ∧ (visualization_svg t = Some EmptyString →
     to_html t = to_html (without_illustration t))
  ∧ (custom_class t = EmptyString →
     Substring ("task task-" +:+ value (category t) +:+ PyStr.dq) (to_html t)).
Proof.
  unfold to_html. cbv zeta.
  split; [apply task_block_holes|]. split; [|split].
  - intros svg Hsvg Hne. rewrite Hsvg.
    destruct svg as [|c svg]; [contradiction|]. cbn [PyStr.truthy].
    destruct (visualization_block_holes (String c svg)) as [H1 H2].
    split;
      (apply (Substring_trans _ (Templates.visualization_block (String c svg)));
       [assumption|apply task_block_holes]).
  - intros Hsvg. rewrite Hsvg. reflexivity.
  - intros Hcls. rewrite Hcls.
    assert (E : PyStr.strip
                  ("task " +:+ ("task-" +:+ value (category t)) +:+ " "
                   +:+ EmptyString)
                = "task task-" +:+ value (category t))
      by (destruct (category t); vm_compute; reflexivity).
    rewrite E. unfold Templates.task_block.
    apply Substring_app_l, Substring_app_l.
    exists EmptyString. eexists.
    rewrite str_app_nil_l, !str_app_assoc. reflexivity.
Qed.

Lemma X10_task_block_contents_witness :
  let t := mkTask 5 SHORT "x + y" (Some "<svg/>") EmptyString in
  visualization_svg t = Some "<svg/>" ∧ "<svg/>" ≠ EmptyString
  ∧ custom_class t = EmptyString
  ∧ Substring "x + y" (to_html t)
  ∧ Substring "<svg/>" (to_html t)
  ∧ Substring ("task task-short" +:+ PyStr.dq) (to_html t).
Proof.
  intros t.
  assert (Hne : "<svg/>" ≠ EmptyString) by discriminate.
  destruct (X10_task_block_contents t) as (Hsol & Hsvg & _ & Hcls).
  destruct (Hsvg "<svg/>" eq_refl Hne) as [Hs _].
  split; [reflexivity|]. split; [exact Hne|]. split; [reflexivity|].
  split; [exact Hsol|]. split; [exact Hs|exact (Hcls eq_refl)].
Defined.

(** *** Laying out twice *)

(** X11.  A task list that is already in page order is left as it is by
    the layout: laying out the result of a layout changes nothing. *)
Theorem X11_layout_of_a_layout (self laid_out : CompactFramework) :
  tasks laid_out = _optimize_layout self →
  _optimize_layout laid_out = tasks laid_out.
Proof.
  intros H. rewrite (optimize_layout_eq laid_out), H.
  rewrite !optimize_layout_bucket. symmetry. apply optimize_layout_eq.
Qed.

Lemma X11_layout_of_a_layout_witness :
  let mixed :=
    add_task
      (add_task (add_task (new_framework None None None)
                   (create_task 1 "long" "L" None))
         (create_task 2 "short" "S" None))
      (create_task 3 "medium" "M" None) in
  let laid_out :=
    mkFramework (title mixed) (author mixed) (date mixed)
      (_optimize_layout mixed) (custom_styles mixed) in
  tasks laid_out = _optimize_layout mixed
  ∧ _optimize_layout laid_out = tasks laid_out.
Proof.
  intros mixed laid_out.
  split; [reflexivity|].
  exact (X11_layout_of_a_layout mixed laid_out eq_refl).
Defined.

(** *** The first marker of a long solution *)

(** [s.find(sub)], with [None] for -1 *)
Fixpoint first_index (sub s : string) : option nat :=
  if String.prefix sub s then Some 0
  else match s with
       | EmptyString => None
       | String _ s' => S <$> first_index sub s'
       end.

(** [s[:n]] *)
Fixpoint str_take (n : nat) (s : string) : string :=
  match n, s with
  | 0, _ => EmptyString
  | S _, EmptyString => EmptyString
  | S k, String c s' => String c (str_take k s')
  end.

Lemma split_go_first_index (sep s : string) (n : nat) :
  sep ≠ EmptyString → first_index sep s = Some n →
  PyStr.split_go sep 0 s
  = str_take n s
    :: PyStr.split_go sep 0 (PyStr.drop (n + String.length sep) s).
Proof.
  intros Hne. revert n. induction s as [|c s IH]; intros n H.
  - cbn [first_index] in H.
    destruct sep; [contradiction|]. discriminate.
  - cbn [first_index] in H.
    destruct (String.prefix sep (String c s)) eqn:E.
    + injection H as <-. apply prefix_true_app in E as [r Hr].
      rewrite Hr, split_go_hit by exact Hne.
      rewrite Nat.add_0_l, str_drop_app_length. reflexivity.
    + destruct (first_index sep s) as [m|] eqn:Hm; [|discriminate].
      injection H as <-.
      rewrite split_go_miss by exact E.
      rewrite (IH m eq_refl). reflexivity.
Qed.

Lemma shown_parts_first_marker (sol : string) (n : nat) :
  first_index SPLIT_MARKER sol = Some n →
  (shown_parts sol).1 = str_take n sol.
Proof.
  intros H. unfold shown_parts. cbv zeta.
  rewrite (split_go_first_index _ _ _ SPLIT_MARKER_nonempty H).
  destruct (PyStr.split_go SPLIT_MARKER 0
              (PyStr.drop (n + String.length SPLIT_MARKER) sol))
    as [|p ps] eqn:E.
  - exfalso. revert E.
    generalize (PyStr.drop (n + String.length SPLIT_MARKER) sol).
    generalize 0. intros k s. revert k.
    induction s as [|c s IHs]; intros k; [discriminate|].
    cbn [PyStr.split_go]. destruct k as [|k]; [|apply IHs].
    destruct (String.prefix SPLIT_MARKER (String c s)); [discriminate|].
    destruct (PyStr.split_go SPLIT_MARKER 0 s); discriminate.
  - rewrite bool_decide_false by (simpl; lia). reflexivity.
Qed.

(** X2.  With a long task in the list, both [long_split_part1.html] and
    [long_split_part2.html] are written, once each, from the first long
    task alone; and when the marker occurs in its solution, part 1 is the
    page of the solution up to the first place the marker starts, however
    many markers follow.  With no long task neither file is written. *)
Theorem X2_long_split_first_marker (self : CompactFramework)
    (output_dir variant_class css_content : string) (w : World) :
  files w !! path_join (resource_root w) "watch_styles.css" = Some css_content →
  let writes (name : string) (fw : CompactFramework) :=
    writes_to (path_join output_dir name)
      (events_since w
         (run (generate_density_variants fw output_dir variant_class) w).2) in
  (∀ t rest,
     filter (λ t, category t = LONG) (tasks self) = t :: rest →
     length (writes "long_split_part1.html" self) = 1
     ∧ length (writes "long_split_part2.html" self) = 1
     ∧ (∀ n, first_index SPLIT_MARKER (solution t) = Some n →
          writes "long_split_part1.html" self
          = [variant_page css_content variant_class
               (Templates.long_content1 (pretty (number t))
                  (str_take n (solution t)))])
     ∧ ∀ self' rest',
         filter (λ t, category t = LONG) (tasks self') = t :: rest' →
         writes "long_split_part1.html" self'
         = writes "long_split_part1.html" self
         ∧ writes "long_split_part2.html" self'
           = writes "long_split_part2.html" self)
  ∧ (filter (λ t, category t = LONG) (tasks self) = [] →
     writes "long_split_part1.html" self = []
     ∧ writes "long_split_part2.html" self = []).
Proof.
  intros Hcss writes.
  assert (Hw : ∀ fw,
            writes "long_split_part1.html" fw
            = long_pages1 variant_class css_content
                (filter (λ t, category t = LONG) (tasks fw))
            ∧ writes "long_split_part2.html" fw
              = long_pages2 variant_class css_content
                  (filter (λ t, category t = LONG) (tasks fw))).
  { intros fw.
    destruct (generate_density_variants_writes fw output_dir variant_class
                css_content w Hcss) as (_ & _ & H1 & H2).
    split; [exact H1|exact H2]. }
  split.
  - intros t rest Hlong. destruct (Hw self) as [H1 H2].
    rewrite H1, H2, Hlong.
    split; [reflexivity|]. split; [reflexivity|]. split.
    + intros n Hn. unfold long_pages1.
      rewrite (shown_parts_first_marker _ _ Hn). reflexivity.
    + intros self' rest' Hlong'. destruct (Hw self') as [H1' H2'].
      rewrite H1', H2', Hlong'. split; reflexivity.
  - intros Hnone. destruct (Hw self) as [H1 H2].
    rewrite H1, H2, Hnone. split; reflexivity.
Qed.

Lemma X2_long_split_first_marker_witness :
  let t :=
    create_task 4 "long"
      ("first" +:+ SPLIT_MARKER +:+ "second" +:+ SPLIT_MARKER +:+ "third")
      None in
  filter (λ t, category t = LONG) (tasks two_marker_framework) = [t]
  ∧ first_index SPLIT_MARKER (solution t) = Some 5
  ∧ writes_to (path_join "out" "long_split_part1.html")
      (events_since sample_world
         (run (generate_density_variants two_marker_framework "out" "v1")
            sample_world).2)
    = [variant_page sample_css "v1" (Templates.long_content1 "4" "first")].
Proof.
  intros t.
  assert (Hlong : filter (λ t, category t = LONG) (tasks two_marker_framework)
                  = [t]) by (vm_compute; reflexivity).
  assert (Hidx : first_index SPLIT_MARKER (solution t) = Some 5)
    by (vm_compute; reflexivity).
  destruct (X2_long_split_first_marker two_marker_framework "out" "v1"
              sample_css sample_world sample_css_readable) as [Hone _].
  destruct (Hone t [] Hlong) as (_ & _ & Hfirst & _).
  split; [exact Hlong|]. split; [exact Hidx|].
  exact (Hfirst 5 Hidx).
Defined.

(** *** Running the density-variant generator again *)

Lemma write_all_cons (p c : string) (outs : list (string * string))
    (w : World) :
  write_all ((p, c) :: outs) w = write_all outs (after_write p c w).
Proof. reflexivity. Qed.

Lemma contents_at_cons (k p c : string) (outs : list (string * string)) :
  contents_at k ((p, c) :: outs)
  = (if decide (p = k) then [c] else []) ++ contents_at k outs.
Proof.
  unfold contents_at. cbn [omap list_omap fst snd].
  destruct (decide (p = k)); reflexivity.
Qed.

Lemma write_all_files_lookup (outs : list (string * string)) (w : World)
    (k : string) :
  files (write_all outs w) !! k
  = match last (contents_at k outs) with
    | Some c => Some c
    | None => files w !! k
    end.
Proof.
  revert w. induction outs as [|[p c] outs IH]; intros w; [reflexivity|].
  rewrite write_all_cons, IH, contents_at_cons. clear IH.
  cbn [after_write emit files].
  destruct (decide (p = k)) as [->|Hne].
  - destruct (contents_at k outs) as [|x xs].
    + cbn [app last]. apply lookup_insert_eq.
    + change ([c] ++ x :: xs) with (c :: x :: xs).
      rewrite last_cons_cons.
      destruct (last (x :: xs)) eqn:El; [reflexivity|].
      apply last_None in El. discriminate.
  - rewrite app_nil_l.
    destruct (last (contents_at k outs)); [reflexivity|].
    apply lookup_insert_ne. exact Hne.
Qed.

Lemma write_all_twice_files (outs : list (string * string)) (w : World) :
  files (write_all outs (write_all outs w)) = files (write_all outs w).
Proof.
  apply map_eq. intros k. rewrite !write_all_files_lookup.
  destruct (last (contents_at k outs)); reflexivity.
Qed.

Lemma write_all_keeps_files (outs : list (string * string)) (w : World)
    (k : string) :
  is_Some (files w !! k) → is_Some (files (write_all outs w) !! k).
Proof.
  intros H. rewrite write_all_files_lookup.
  destruct (last (contents_at k outs)); [eauto|exact H].
Qed.

Lemma after_ensure_dir_present (output_dir : string) (w : World) :
  is_Some (files (after_ensure_dir output_dir w) !! output_dir)
  ∨ output_dir ∈ dirs (after_ensure_dir output_dir w).
Proof.
  unfold after_ensure_dir.
  destruct (bool_decide _) eqn:E.
  - apply bool_decide_eq_true in E. exact E.
  - right. cbn [emit dirs]. set_solver.
Qed.

Lemma after_ensure_dir_again (output_dir : string) (w : World) :
  is_Some (files w !! output_dir) ∨ output_dir ∈ dirs w →
  after_ensure_dir output_dir w = w.
Proof.
  intros H. unfold after_ensure_dir. rewrite bool_decide_true by exact H.
  reflexivity.
Qed.

(** X5.  Running the density-variant generator a second time on the same
    task list into the same directory, with the style sheet unchanged by
    the first run, succeeds, makes no directory, writes the same contents
    to the same paths in the same order, and leaves every file as the first
    run left it. *)
Theorem X5_density_variants_again_same_files (self : CompactFramework)
    (output_dir variant_class css_content : string) (w : World) :
  files w !! path_join (resource_root w) "watch_styles.css" = Some css_content →
  let first := run (generate_density_variants self output_dir variant_class) w in
  files first.2 !! path_join (resource_root w) "watch_styles.css"
  = Some css_content →
  let second :=
    run (generate_density_variants self output_dir variant_class) first.2 in
  second.1 = Ok tt
  ∧ files second.2 = files first.2
  ∧ dirs second.2 = dirs first.2
  ∧ events_since first.2 second.2
    = map write_event
        (density_outputs self output_dir variant_class css_content)
  ∧ events_since w first.2
    = mkdir_events output_dir w
      ++ map write_event
           (density_outputs self output_dir variant_class css_content).
Proof.
  intros Hcss first Hcss1 second.
  pose proof (generate_density_variants_events self output_dir variant_class
                css_content w Hcss) as Hev1.
  fold first in Hev1.
  assert (Hfirst : first
                   = (Ok tt,
                      write_all
                        (density_outputs self output_dir variant_class
                           css_content)
                        (after_ensure_dir output_dir w)))
    by apply (generate_density_variants_run _ _ _ _ _ Hcss).
  assert (Hroot : resource_root first.2 = resource_root w).
  { rewrite Hfirst. cbn [snd].
    rewrite write_all_root, after_ensure_dir_root. reflexivity. }
  assert (Hpresent : is_Some (files first.2 !! output_dir)
                     ∨ output_dir ∈ dirs first.2).
  { rewrite Hfirst. cbn [snd]. rewrite write_all_dirs.
    destruct (after_ensure_dir_present output_dir w) as [H|H];
      [left; apply write_all_keeps_files, H|right; exact H]. }
  assert (Hcss1' : files first.2
                   !! path_join (resource_root first.2) "watch_styles.css"
                   = Some css_content) by (rewrite Hroot; exact Hcss1).
  assert (Hsecond : second
                    = (Ok tt,
                       write_all
                         (density_outputs self output_dir variant_class
                            css_content) first.2)).
  { subst second.
    rewrite (generate_density_variants_run _ _ _ _ _ Hcss1').
    rewrite (after_ensure_dir_again _ _ Hpresent). reflexivity. }
  rewrite Hsecond. cbn [fst snd].
  split; [reflexivity|]. split; [|split; [|split]].
  - rewrite Hfirst. cbn [snd]. apply write_all_twice_files.
  - apply write_all_dirs.
  - unfold events_since. rewrite write_all_trace_events.
    apply drop_app_length.
  - exact Hev1.
Qed.

Lemma X5_density_variants_again_same_files_witness :
  let first :=
    run (generate_density_variants sample_framework "out" "v1") sample_world in
  let second :=
    run (generate_density_variants sample_framework "out" "v1") first.2 in
  files sample_world !! path_join (resource_root sample_world) "watch_styles.css"
  = Some sample_css
  ∧ files first.2 !! path_join (resource_root sample_world) "watch_styles.css"
    = Some sample_css
  ∧ second.1 = Ok tt
  ∧ files second.2 = files first.2
  ∧ dirs second.2 = dirs first.2.
Proof.
  intros first second.
  assert (H1 : files first.2
               !! path_join (resource_root sample_world) "watch_styles.css"
               = Some sample_css) by (vm_compute; reflexivity).
  destruct (X5_density_variants_again_same_files sample_framework "out" "v1"
              sample_css sample_world sample_css_readable H1)
    as (Hok & Hfiles & Hdirs & _).
  split; [exact sample_css_readable|]. split; [exact H1|].
  split; [exact Hok|]. split; [exact Hfiles|exact Hdirs].
Defined.

(** *** No task is lost *)

(** X12.  When the template holds the token [{{TASKS}}], the page
    [generate] writes holds the block of every task of the list, and with it
    the solution of every task: the four substitutions made before cannot
    damage the token, whatever the title, author, date and styles are. *)
Theorem X12_no_task_is_lost (self : CompactFramework) (output_path : string)
    (template_path : option string) (template : string) (w : World) :
  files w !! template_of template_path w = Some template →
  Substring "{{TASKS}}" template →
  let outcome := run (generate self output_path template_path) w in
  ∃ page,
    outcome.1 = Ok tt
    ∧ files outcome.2 !! output_path = Some page
    ∧ ∀ t, t ∈ tasks self →
           Substring (to_html t) page ∧ Substring (solution t) page.
Proof.
  intros Ht Htok outcome. subst outcome.
  rewrite (generate_run _ _ _ _ _ Ht). cbn [fst snd].
  eexists. split; [reflexivity|].
  split; [rewrite after_generate_files; apply lookup_insert_eq|].
  intros t Hin.
  assert (Hblock : Substring (to_html t)
                     (fill_template self template
                        (PyStr.join PyStr.nl (rendered_blocks self)))).
  { unfold fill_template. cbv zeta.
    eapply Substring_trans;
      [|apply replace_Substring; [discriminate|]].
    - apply join_elem. unfold rendered_blocks.
      apply list_elem_of_fmap. exists t. split; [reflexivity|].
      rewrite optimize_layout_eq, optimize_layout_perm. exact Hin.
    - apply replace_preserves; [vm_compute; reflexivity|].
      apply replace_preserves; [vm_compute; reflexivity|].
      apply replace_preserves; [vm_compute; reflexivity|].
      destruct (PyStr.truthy (custom_styles self));
        (apply replace_preserves; [vm_compute; reflexivity|exact Htok]). }
  split; [exact Hblock|].
  eapply Substring_trans; [|exact Hblock].
  unfold to_html. cbv zeta. apply task_block_holes.
Qed.

Lemma X12_no_task_is_lost_witness :
  files sample_world !! template_of None sample_world = Some sample_template
  ∧ Substring "{{TASKS}}" sample_template
  ∧ ∃ page,
      files (run (generate sample_framework "out.html" None) sample_world).2
      !! "out.html" = Some page
      ∧ Substring "first" page.
Proof.
  assert (H : files sample_world !! template_of None sample_world
              = Some sample_template) by (vm_compute; reflexivity).
  assert (Htok : Substring "{{TASKS}}" sample_template)
    by (apply contains_Substring; vm_compute; reflexivity).
  destruct (X12_no_task_is_lost sample_framework "out.html" None
              sample_template sample_world H Htok) as (page & _ & Hfile & Hall).
  split; [exact H|]. split; [exact Htok|].
  exists page. split; [exact Hfile|].
  eapply Substring_trans;
    [|apply (Hall (create_task 4 "long"
                     ("first" +:+ SPLIT_MARKER +:+ "second") None))].
  - exists EmptyString. eexists. reflexivity.
  - change (tasks sample_framework)
      with [create_task 1 "short" "A" None; create_task 2 "short" "B" None;
            create_task 3 "medium" "C" None;
            create_task 4 "long" ("first" +:+ SPLIT_MARKER +:+ "second") None].
    rewrite !elem_of_cons. auto.
Defined.

(** *** The auto-fit script *)

(** The head of the density page, from the document type to the opening of
    the style element: the auto-fit script is in it. *)
Definition AUTOFIT_HEAD : string :=
"<!DOCTYPE html>
<html>
<head>
    <meta charset=" +:+ PyStr.dq +:+ "UTF-8" +:+ PyStr.dq +:+ ">
    <title>Watch Task</title>
    <script src=" +:+ PyStr.dq +:+ "https://polyfill.io/v3/polyfill.min.js?features=es6" +:+ PyStr.dq +:+ "></script>
    <script id=" +:+ PyStr.dq +:+ "MathJax-script" +:+ PyStr.dq +:+ " async src=" +:+ PyStr.dq +:+ "https://cdn.jsdelivr.net/npm/mathjax@3/es5/tex-mml-chtml.js" +:+ PyStr.dq +:+ "></script>
    <script>
        // AUTO-FIT LOGIC
        window.addEventListener('load', function() {
            const container = document.querySelector('.watch-container');
            if (!container) return;

            // 1. Adjust Font Size to Fill
            // Only for adaptive layout or generally to prevent overflow
            function autoFit() {
                let fontSize = 100; // Start percentage
                const minSize = 40;
                
                // Check for overflow
                while (container.scrollHeight > container.clientHeight && fontSize > minSize) {
                    fontSize -= 2;
                    document.body.style.fontSize = fontSize + '%';
                }
                
                // If too much space (only for adaptive), grow? 
                // For now, just ensure it fits.
            }
            
            // Run after MathJax
            if (window.MathJax) {
                MathJax.startup.promise.then(() => {
                    setTimeout(autoFit, 500); // Delay for rendering
                });
            } else {
                autoFit();
            }
        });
    </script>
    <style>
        ".

Lemma base_template_head (css_content variant_class : string) :
  ∃ rest,
    Templates.base_template css_content variant_class = AUTOFIT_HEAD +:+ rest.
Proof.
  unfold Templates.base_template, AUTOFIT_HEAD. eexists.
  rewrite !str_app_assoc. reflexivity.
Qed.

Lemma variant_page_head (css_content variant_class content : string) :
  ∃ rest,
    variant_page css_content variant_class content = AUTOFIT_HEAD +:+ rest.
Proof.
  unfold variant_page.
  destruct (base_template_head css_content variant_class) as [rest ->].
  eexists. rewrite replace_nonempty by discriminate.
  apply (strip_text "CONTENT}}").
  vm_compute. reflexivity.
Qed.

Lemma density_outputs_pages (self : CompactFramework)
    (output_dir variant_class css_content : string) (pc : string * string) :
  pc ∈ density_outputs self output_dir variant_class css_content →
  ∃ content, pc.2 = variant_page css_content variant_class content.
Proof.
  unfold density_outputs. intros H.
  apply elem_of_app in H as [H|H]; [|apply elem_of_app in H as [H|H]].
  - unfold short_outputs in H.
    destruct (filter (λ t, category t = SHORT) (tasks self)) as [|t1 [|t2 ?]];
      try (apply elem_of_nil in H; contradiction).
    apply list_elem_of_singleton in H. subst pc.
    exists (pair_content variant_class t1 t2). reflexivity.
  - unfold medium_outputs in H.
    destruct (filter (λ t, category t = MEDIUM) (tasks self)) as [|t ?];
      try (apply elem_of_nil in H; contradiction).
    apply list_elem_of_singleton in H. subst pc.
    exists (Templates.medium_content (pretty (number t)) (solution t)).
    reflexivity.
  - unfold long_outputs in H.
    destruct (filter (λ t, category t = LONG) (tasks self)) as [|t ?];
      try (apply elem_of_nil in H; contradiction).
    apply elem_of_cons in H as [H|H].
    + subst pc.
      exists (Templates.long_content1 (pretty (number t))
                (shown_parts (solution t)).1).
      reflexivity.
    + apply list_elem_of_singleton in H. subst pc.
      exists (Templates.long_content2 (pretty (number t))
                (shown_parts (solution t)).2).
      reflexivity.
Qed.

(** X13.  Every file one call of the density-variant generator writes
    begins with the same head, whatever the tasks, the style sheet and the
    variant token are; the head holds the auto-fit script with its start at
    100 percent, its step of 2 and its floor of 40, run at once or, with
    MathJax present, half a second after its start-up. *)
Theorem X13_every_page_begins_with_autofit_head (self : CompactFramework)
    (output_dir variant_class css_content : string) (w : World) :
  files w !! path_join (resource_root w) "watch_styles.css" = Some css_content →
  let outcome := run (generate_density_variants self output_dir variant_class) w in
  (∀ path content,
     EvWrite path content ∈ events_since w outcome.2 →
     ∃ rest, content = AUTOFIT_HEAD +:+ rest)
  ∧ Substring "let fontSize = 100;" AUTOFIT_HEAD
  ∧ Substring "const minSize = 40;" AUTOFIT_HEAD
  ∧ Substring "fontSize -= 2;" AUTOFIT_HEAD
  ∧ Substring
      "while (container.scrollHeight > container.clientHeight && fontSize > minSize)"
      AUTOFIT_HEAD
  ∧ Substring "setTimeout(autoFit, 500);" AUTOFIT_HEAD.
Proof.
  intros Hcss outcome. split.
  - intros path content Hin. subst outcome.
    rewrite (generate_density_variants_events _ _ _ _ _ Hcss) in Hin.
    apply elem_of_app in Hin as [Hin|Hin].
    + unfold mkdir_events in Hin. destruct (bool_decide _).
      * apply elem_of_nil in Hin. contradiction.
      * apply list_elem_of_singleton in Hin. discriminate.
    + apply list_elem_of_fmap in Hin as (pc & Heq & Hpc).
      apply density_outputs_pages in Hpc as [c Hc].
      unfold write_event in Heq. injection Heq as _ ->. rewrite Hc.
      apply variant_page_head.
  - repeat split; apply contains_Substring; vm_compute; reflexivity.
Qed.

Lemma X13_every_page_begins_with_autofit_head_witness :
  files sample_world !! path_join (resource_root sample_world) "watch_styles.css"
  = Some sample_css
  ∧ ∀ path content,
      EvWrite path content
      ∈ events_since sample_world
          (run (generate_density_variants sample_framework "out" "v1")
             sample_world).2 →
      ∃ rest, content = AUTOFIT_HEAD +:+ rest.
Proof.
  split; [exact sample_css_readable|].
  exact (proj1 (X13_every_page_begins_with_autofit_head sample_framework "out"
                  "v1" sample_css sample_world sample_css_readable)).
Defined.

(** *** What the density-variant generator leaves alone *)

(** The four paths a call may write. *)
Definition density_paths (output_dir : string) : list string :=
  [ path_join output_dir "combined_short.html";
    path_join output_dir "medium_single.html";
    path_join output_dir "long_split_part1.html";
    path_join output_dir "long_split_part2.html" ].

Lemma density_outputs_paths (self : CompactFramework)
    (output_dir variant_class css_content : string) (pc : string * string) :
  pc ∈ density_outputs self output_dir variant_class css_content →
  pc.1 ∈ density_paths output_dir.
Proof.
  unfold density_outputs, density_paths. intros H.
  apply elem_of_app in H as [H|H]; [|apply elem_of_app in H as [H|H]].
  - unfold short_outputs in H.
    destruct (filter (λ t, category t = SHORT) (tasks self)) as [|t1 [|t2 ?]];
      try (apply elem_of_nil in H; contradiction).
    apply list_elem_of_singleton in H. subst pc. cbn [fst].
    rewrite !elem_of_cons. auto.
  - unfold medium_outputs in H.
    destruct (filter (λ t, category t = MEDIUM) (tasks self)) as [|t ?];
      try (apply elem_of_nil in H; contradiction).
    apply list_elem_of_singleton in H. subst pc. cbn [fst].
    rewrite !elem_of_cons. auto.
  - unfold long_outputs in H.
    destruct (filter (λ t, category t = LONG) (tasks self)) as [|t ?];
      try (apply elem_of_nil in H; contradiction).
    apply elem_of_cons in H as [H|H].
    + subst pc. cbn [fst]. rewrite !elem_of_cons. auto.
    + apply list_elem_of_singleton in H. subst pc. cbn [fst].
      rewrite !elem_of_cons. auto.
Qed.

Lemma contents_at_elsewhere (k : string) (outs : list (string * string)) :
  (∀ pc, pc ∈ outs → pc.1 ≠ k) → contents_at k outs = [].
Proof.
  induction outs as [|[p c] outs IH]; intros H; [reflexivity|].
  rewrite contents_at_cons, decide_False.
  - apply IH. intros pc Hpc. apply H. apply elem_of_cons. right. exact Hpc.
  - apply (H (p, c)). apply elem_of_cons. left. reflexivity.
Qed.

(** X14.  One call of the density-variant generator opens for writing only
    paths among the four fixed names under the output directory, and leaves
    every file at any other path as it was. *)
Theorem X14_density_variants_write_only_their_files (self : CompactFramework)
    (output_dir variant_class css_content : string) (w : World) :
  files w !! path_join (resource_root w) "watch_styles.css" = Some css_content →
  let outcome := run (generate_density_variants self output_dir variant_class) w in
  (∀ path, path ∈ written_paths (events_since w outcome.2) →
           path ∈ density_paths output_dir)
  ∧ (∀ path, path ∉ density_paths output_dir →
             files outcome.2 !! path = files w !! path).
Proof.
  intros Hcss outcome. split.
  - intros path Hin. subst outcome.
    rewrite (generate_density_variants_events _ _ _ _ _ Hcss) in Hin.
    rewrite written_paths_app, written_paths_mkdir, written_paths_outputs,
      app_nil_l in Hin.
    apply list_elem_of_fmap in Hin as (pc & -> & Hpc).
    eapply density_outputs_paths, Hpc.
  - intros path Hout. subst outcome.
    rewrite (generate_density_variants_run _ _ _ _ _ Hcss). cbn [snd].
    rewrite write_all_files_lookup, contents_at_elsewhere.
    + cbn [last]. rewrite after_ensure_dir_files. reflexivity.
    + intros pc Hpc Heq. apply Hout. rewrite <- Heq.
      eapply density_outputs_paths, Hpc.
Qed.

Lemma X14_density_variants_write_only_their_files_witness :
  let outcome :=
    run (generate_density_variants sample_framework "out" "v1") sample_world in
  files sample_world !! path_join (resource_root sample_world) "watch_styles.css"
  = Some sample_css
  ∧ ("framework/template.html" ∉ density_paths "out")
  ∧ files outcome.2 !! "framework/template.html"
    = files sample_world !! "framework/template.html".
Proof.
  intros outcome.
  assert (Hout : "framework/template.html" ∉ density_paths "out").
  { unfold density_paths. rewrite !not_elem_of_cons.
    repeat split; try (vm_compute; discriminate). apply not_elem_of_nil. }
  destruct (X14_density_variants_write_only_their_files sample_framework "out"
              "v1" sample_css sample_world sample_css_readable) as [_ Hframe].
  split; [exact sample_css_readable|]. split; [exact Hout|].
  exact (Hframe _ Hout).
Defined.

(** X16.  The density-variant generator reads nothing of the document
    context but its task list: two contexts with the same tasks, whatever
    their titles, authors, dates and accumulated styles, give the same
    result and leave the same world. *)
Theorem X16_density_variants_read_only_the_tasks (self self' : CompactFramework)
    (output_dir variant_class : string) (w : World) :
  tasks self' = tasks self →
  run (generate_density_variants self' output_dir variant_class) w
  = run (generate_density_variants self output_dir variant_class) w.
Proof.
  intros Ht.
  destruct (files w !! path_join (resource_root w) "watch_styles.css")
    as [css|] eqn:Hcss.
  - rewrite !(generate_density_variants_run _ _ _ _ _ Hcss).
    unfold density_outputs. rewrite Ht. reflexivity.
  - rewrite !(generate_density_variants_no_css _ _ _ _ Hcss). reflexivity.
Qed.

Lemma X16_density_variants_read_only_the_tasks_witness :
  let styled := add_custom_styles sample_framework "body { color: red; }" in
  tasks styled = tasks sample_framework
  ∧ run (generate_density_variants styled "out" "v1") sample_world
    = run (generate_density_variants sample_framework "out" "v1") sample_world.
Proof.
  intros styled. split; [reflexivity|].
  exact (X16_density_variants_read_only_the_tasks sample_framework styled
           "out" "v1" sample_world eq_refl).
Defined.

(** *** The page around a content fragment *)

(** Between the style sheet and the variant token. *)
Definition PAGE_MIDDLE : string :=
"
    </style>
</head>
<body class=" +:+ PyStr.dq.

(** Between the variant token and the content. *)
Definition PAGE_OPEN : string :=
PyStr.dq +:+ ">
    <div class=" +:+ PyStr.dq +:+ "watch-container" +:+ PyStr.dq +:+ ">
        ".

(** Behind the content. *)
Definition PAGE_TAIL : string :=
"
    </div>
</body>
</html>".

(** The density page with one content fragment in its container. *)
Definition page_around (css_content variant_class fragment : string) : string :=
  AUTOFIT_HEAD +:+ css_content +:+ PAGE_MIDDLE +:+ variant_class +:+ PAGE_OPEN
  +:+ fragment +:+ PAGE_TAIL.

Ltac same_front :=
  repeat match goal with
         | |- String.append ?a _ = String.append ?a _ =>
             apply (f_equal (String.append a))
         end.

Lemma base_template_shape (css_content variant_class : string) :
  Templates.base_template css_content variant_class
  = page_around css_content variant_class "{{CONTENT}}".
Proof.
  unfold Templates.base_template, page_around, AUTOFIT_HEAD, PAGE_MIDDLE,
    PAGE_OPEN, PAGE_TAIL.
  rewrite !str_app_assoc. same_front. vm_compute. reflexivity.
Qed.

Lemma variant_page_exact (css_content variant_class fragment : string) :
  braces_apart css_content = true → braces_apart variant_class = true →
  variant_page css_content variant_class fragment
  = page_around css_content variant_class fragment.
Proof.
  intros Hcss Hv. unfold variant_page.
  rewrite base_template_shape, replace_nonempty by discriminate.
  unfold page_around.
  assert (Hfront : braces_apart
                     (AUTOFIT_HEAD +:+ css_content +:+ PAGE_MIDDLE
                      +:+ variant_class +:+ PAGE_OPEN) = true).
  { apply braces_apart_app; [vm_compute; reflexivity|].
    apply braces_apart_app; [exact Hcss|].
    apply braces_apart_app; [vm_compute; reflexivity|].
    apply braces_apart_app; [exact Hv|vm_compute; reflexivity]. }
  replace (AUTOFIT_HEAD +:+ css_content +:+ PAGE_MIDDLE +:+ variant_class
           +:+ PAGE_OPEN +:+ "{{CONTENT}}" +:+ PAGE_TAIL)
    with ((AUTOFIT_HEAD +:+ css_content +:+ PAGE_MIDDLE +:+ variant_class
           +:+ PAGE_OPEN) +:+ "{{CONTENT}}" +:+ PAGE_TAIL)
    by (rewrite !str_app_assoc; reflexivity).
  rewrite (strip_text "CONTENT}}") by exact Hfront.
  rewrite replace_go_hit by discriminate.
  rewrite (replace_go_absent _ _ PAGE_TAIL) by (vm_compute; reflexivity).
  rewrite !str_app_assoc. reflexivity.
Qed.

(** X15.  When in the style sheet and in the variant token every opening
    brace is followed by another character, every file one call writes is
    the fixed page with the style sheet in its style element, the variant
    token as the class of its body and one content fragment in its
    container, and nothing else of it varies. *)
Theorem X15_density_page_is_template_around_fragment (self : CompactFramework)
    (output_dir variant_class css_content : string) (w : World) :
  files w !! path_join (resource_root w) "watch_styles.css" = Some css_content →
  braces_apart css_content = true →
  braces_apart variant_class = true →
  let outcome := run (generate_density_variants self output_dir variant_class) w in
  ∀ path content,
    EvWrite path content ∈ events_since w outcome.2 →
    ∃ fragment, content = page_around css_content variant_class fragment.
Proof.
  intros Hcss Hb Hv outcome path content Hin. subst outcome.
  rewrite (generate_density_variants_events _ _ _ _ _ Hcss) in Hin.
  apply elem_of_app in Hin as [Hin|Hin].
  - unfold mkdir_events in Hin. destruct (bool_decide _).
    + apply elem_of_nil in Hin. contradiction.
    + apply list_elem_of_singleton in Hin. discriminate.
  - apply list_elem_of_fmap in Hin as (pc & Heq & Hpc).
    apply density_outputs_pages in Hpc as [c Hc].
    unfold write_event in Heq. injection Heq as _ ->.
    exists c. rewrite Hc. apply variant_page_exact; assumption.
Qed.

Lemma X15_density_page_is_template_around_fragment_witness :
  files sample_world !! path_join (resource_root sample_world) "watch_styles.css"
  = Some sample_css
  ∧ braces_apart sample_css = true
  ∧ braces_apart "v1" = true
  ∧ ∀ path content,
      EvWrite path content
      ∈ events_since sample_world
          (run (generate_density_variants sample_framework "out" "v1")
             sample_world).2 →
      ∃ fragment, content = page_around sample_css "v1" fragment.
Proof.
  assert (Hb : braces_apart sample_css = true) by (vm_compute; reflexivity).
  assert (Hv : braces_apart "v1" = true) by (vm_compute; reflexivity).
  split; [exact sample_css_readable|]. split; [exact Hb|]. split; [exact Hv|].
  exact (X15_density_page_is_template_around_fragment sample_framework "out"
           "v1" sample_css sample_world sample_css_readable Hb Hv).
Defined.
